(** * Fashion search pipeline: a shallow embedding of [search.py] and [database.py]

    The development follows the Python source function by function.
    Python values that travel through the pipeline (the JSON the language
    model answers, the [where] clauses handed to the vector index, the
    dicts the entry points return) are terms of one type [pyval].  Calls
    to the outside (Gemini, ChromaDB) go through a small state-and-error
    monad that records every request in a trace.

    What the model leaves out: the [print] calls of the handlers; the
    lazy construction of the two clients ([_get_gemini], [_get_collection]),
    which are taken as already built; failures of SQLite other than
    its refusal of an integer that does not fit 64 bits (the [products]
    table is taken as ingested and readable, and a statement as having
    no more placeholders than SQLite allows); exceptions that do not
    derive from [Exception]. *)

From Stdlib Require Import ZArith QArith String Ascii List Bool Lia.
From Stdlib Require Import DecimalString DecimalZ.
Import ListNotations.

Set Warnings "-register-all".

Local Open Scope Z_scope.
Local Open Scope string_scope.
Local Open Scope list_scope.

(** ** Python values *)

(** A Python float as far as the pipeline looks at one: [nan], an
    infinity, or a finite value (every finite double is a rational). *)
Inductive pyfloat : Type :=
| FNan
| FInf (negative : bool)
| FFinite (q : Q).

Inductive pyval : Type :=
| PNone
| PBool (b : bool)
| PInt (z : Z)
| PFloat (f : pyfloat)
| PStr (s : string)
| PList (l : list pyval)
| PDict (d : list (string * pyval)).

(** The exceptions the modelled code can meet; all of them derive from
    Python's [Exception], so an [except Exception] clause catches each. *)
Inductive exn : Type :=
| AttributeError
| KeyError (key : string)
| TypeError
| ValueError
| OverflowError
| JSONDecodeError
| ServiceError (msg : string)
| DatabaseError (msg : string).

Inductive Result (A : Type) : Type :=
| Ok (a : A)
| Raise (e : exn).
Arguments Ok {A} a.
Arguments Raise {A} e.

Definition bindR {A B : Type} (r : Result A) (k : A -> Result B) : Result B :=
  match r with
  | Ok a => k a
  | Raise e => Raise e
  end.

Notation "x <-? c ;; k" := (bindR c (fun x => k))
  (at level 61, c at next level, right associativity).

Fixpoint mapR {A B : Type} (f : A -> Result B) (l : list A) : Result (list B) :=
  match l with
  | [] => Ok []
  | a :: l' => b <-? f a ;; bs <-? mapR f l' ;; Ok (b :: bs)
  end.

(** Truth value testing, as [if x:] and [x or y] do it. *)
Definition float_truthy (f : pyfloat) : bool :=
  match f with
  | FFinite q => negb (Qeq_bool q (0 # 1))
  | _ => true
  end.

Definition truthy (v : pyval) : bool :=
  match v with
  | PNone => false
  | PBool b => b
  | PInt z => negb (z =? 0)%Z
  | PFloat f => float_truthy f
  | PStr s => negb (s =? EmptyString)%string
  | PList l => match l with [] => false | _ => true end
  | PDict d => match d with [] => false | _ => true end
  end.

(** [x or y] *)
Definition py_or (x y : pyval) : pyval := if truthy x then x else y.

(** Dict access on an association list: the first binding of a key is
    the one a lookup sees. *)
Fixpoint assoc (d : list (string * pyval)) (k : string) : option pyval :=
  match d with
  | [] => None
  | (k', v) :: d' => if (k' =? k)%string then Some v else assoc d' k
  end.

(** [d.get(k, default)] *)
Definition py_get_default (v : pyval) (k : string) (default : pyval) : Result pyval :=
  match v with
  | PDict d => Ok (match assoc d k with Some x => x | None => default end)
  | _ => Raise AttributeError
  end.

(** [d.get(k)] *)
Definition py_get (v : pyval) (k : string) : Result pyval :=
  py_get_default v k PNone.

(** [d[k]] on a dict *)
Definition py_getitem (v : pyval) (k : string) : Result pyval :=
  match v with
  | PDict d => match assoc d k with Some x => Ok x | None => Raise (KeyError k) end
  | _ => Raise TypeError
  end.

(** [str(n)] and the digits of [len(...)] in an f-string. *)
Definition str_of_int (z : Z) : string := NilZero.string_of_int (Z.to_int z).

(** [int(x)] for a float: truncation towards zero, an error on [nan] and
    on the infinities. *)
Definition int_of_float (f : pyfloat) : Result Z :=
  match f with
  | FNan => Raise ValueError
  | FInf _ => Raise OverflowError
  | FFinite q => Ok (Z.quot (Qnum q) (Zpos (Qden q)))
  end.

(** String concatenation of the pieces of an f-string. *)
Definition fstr (pieces : list string) : string := String.concat EmptyString pieces.

Definition dq : string := String "034"%char EmptyString.
Definition nl : string := String "010"%char EmptyString.

(** ** Library functions and the outside world

    [re.sub], [str.strip], [json.loads], [int] on a string and [str] on
    a container are library code; the model takes them as they come.
    The language model and the vector index answer as they please: their
    answer may depend on the whole history of the requests made so far,
    which makes them as non-deterministic as a run can observe. *)

Inductive event : Type :=
| EvGenerate (prompt : string)
| EvGenerateWithImage (prompt : string) (image_bytes : list Byte.byte)
| EvQuery (query_text : pyval) (n_results : Z) (where_ : option pyval).

Definition trace : Type := list event.

(** A row of the [products] table, as [setup_database.py] writes it. *)
Record product : Type := mkProduct {
  ProductId : Z;
  ProductTitle : string;
  Gender : string;
  Category : string;
  SubCategory : string;
  ProductType : string;
  Colour : string;
  Usage : string;
  ImageURL : string;
  Price : Z;
  Rating : Q;
  Reviews : Z
}.

Record World : Type := mkWorld {
  (** [client.models.generate_content(...).text.strip()] *)
  gemini_text : trace -> string -> Result string;
  gemini_vision : trace -> string -> list Byte.byte -> Result string;
  (** [collection.query(...)["ids"]] *)
  chroma_query : trace -> pyval -> Z -> option pyval -> Result (list (list string));
  (** the [products] table of fashion.db, in scan order *)
  products_table : list product;
  (** [re.sub] deleting the markdown code fences, then [.strip()] *)
  strip_fences : string -> string;
  json_loads : string -> Result pyval;
  int_of_str : string -> Result Z;
  (** [str(x)] for a float, a list or a dict *)
  repr_other : pyval -> string
}.

(** [int(x)] *)
Definition py_int (w : World) (v : pyval) : Result Z :=
  match v with
  | PInt z => Ok z
  | PBool b => Ok (if b then 1 else 0)
  | PFloat f => int_of_float f
  | PStr s => int_of_str w s
  | _ => Raise TypeError
  end.

(** [str(x)], which is what an f-string placeholder prints. *)
Definition py_str (w : World) (v : pyval) : string :=
  match v with
  | PNone => "None"
  | PBool true => "True"
  | PBool false => "False"
  | PInt z => str_of_int z
  | PStr s => s
  | _ => repr_other w v
  end.

(** ** The state-and-error monad of the pipeline *)

Definition M (A : Type) : Type := trace -> Result A * trace.

Definition ret {A : Type} (a : A) : M A := fun tr => (Ok a, tr).

Definition bind {A B : Type} (m : M A) (k : A -> M B) : M B :=
  fun tr =>
    match m tr with
    | (Ok a, tr') => k a tr'
    | (Raise e, tr') => (Raise e, tr')
    end.

Notation "x <- c ;; k" := (bind c (fun x => k))
  (at level 61, c at next level, right associativity).

(** A pure computation that may raise, run inside the pipeline. *)
Definition lift {A : Type} (r : Result A) : M A := fun tr => (r, tr).

(** [try: m  except Exception as e: handler(e)] *)
Definition try_except {A : Type} (m : M A) (handler : exn -> M A) : M A :=
  fun tr =>
    match m tr with
    | (Ok a, tr') => (Ok a, tr')
    | (Raise e, tr') => handler e tr'
    end.

(** ** search.py *)

Section Pipeline.

Variable w : World.

(** [_generate(prompt)]: the request is made, then the model answers or
    the call raises. *)
Definition _generate (prompt : string) : M string :=
  fun tr => (gemini_text w tr prompt, tr ++ [EvGenerate prompt]).

Definition _generate_with_image (prompt : string) (image_bytes : list Byte.byte) : M string :=
  fun tr => (gemini_vision w tr prompt image_bytes,
             tr ++ [EvGenerateWithImage prompt image_bytes]).

(** [collection.query(query_texts=[text], n_results=n, where=...)], of
    which the callers read the ["ids"] entry only. *)
Definition collection_query (query_text : pyval) (n_results : Z) (where_ : option pyval)
  : M (list (list string)) :=
  fun tr => (chroma_query w tr query_text n_results where_,
             tr ++ [EvQuery query_text n_results where_]).

Definition parse_prompt (query : string) : string :=
  fstr [
    "You are a fashion search assistant. Extract search parameters from this query."; nl;
    "Return ONLY valid JSON (no markdown, no explanation)."; nl;
    nl;
    "Query: "; dq; query; dq; nl;
    nl;
    "Return JSON with these keys (use null if not mentioned):"; nl;
    "{"; nl;
    "  "; dq; "search_text"; dq; ": "; dq; "refined search phrase for semantic search"; dq; ","; nl;
    "  "; dq; "max_price"; dq; ": <integer or null>,"; nl;
    "  "; dq; "min_price"; dq; ": <integer or null>,"; nl;
    "  "; dq; "gender"; dq; ": "; dq; "<Men|Women|Boys|Girls|null>"; dq; ","; nl;
    "  "; dq; "color"; dq; ": "; dq; "<color name or null>"; dq; ","; nl;
    "  "; dq; "usage"; dq; ": "; dq; "<Casual|Formal|Sports|Ethnic|Party|Smart Casual|null>"; dq; ","; nl;
    "  "; dq; "product_type"; dq; ": "; dq; "<type like Shirts|Jeans|Tops|Shoes|etc or null>"; dq; ","; nl;
    "  "; dq; "category"; dq; ": "; dq; "<Apparel|Footwear|null>"; dq; nl;
    "}"; nl;
    nl;
    "Examples:"; nl;
    "- "; dq; "blue formal shirts under 2000"; dq; " â†’ search_text:"; dq; "blue formal shirts"; dq;
      ", max_price:2000, color:"; dq; "Blue"; dq; nl;
    "- "; dq; "suggest party wear, no baggy clothes"; dq; " â†’ search_text:"; dq;
      "party wear fitted clothes"; dq; nl;
    "- "; dq; "casual sneakers for women"; dq; " â†’ search_text:"; dq; "casual sneakers women"; dq;
      ", gender:"; dq; "Women"; dq; ", usage:"; dq; "Casual"; dq; nl ].

Arguments parse_prompt : simpl never.

(** The dict of the [except] branch of [parse_query_with_gemini]. *)
Definition fallback_filters (query : string) : pyval :=
  PDict [ ("search_text", PStr query); ("max_price", PNone); ("min_price", PNone);
          ("gender", PNone); ("color", PNone); ("usage", PNone);
          ("product_type", PNone); ("category", PNone) ].

Definition parse_query_with_gemini (query : string) : M pyval :=
  try_except
    (text <- _generate (parse_prompt query) ;;
     let text := strip_fences w text in
     lift (json_loads w text))
    (fun _ => ret (fallback_filters query)).

(** One [if filters.get(key): conditions.append({field: {op: value}})]
    step of [build_chroma_where]; [conv] is the identity for the
    equality conditions and [int] for the two price bounds. *)
Definition condition (field op : string) (value : pyval) : pyval :=
  PDict [ (field, PDict [ (op, value) ]) ].

Definition append_condition (filters : pyval) (key field op : string)
    (conv : pyval -> Result pyval) (conditions : list pyval) : Result (list pyval) :=
  got <-? py_get filters key ;;
  if truthy got then
    item <-? py_getitem filters key ;;
    value <-? conv item ;;
    Ok (conditions ++ [condition field op value])
  else Ok conditions.

Definition as_is (v : pyval) : Result pyval := Ok v.

Definition as_int (v : pyval) : Result pyval := z <-? py_int w v ;; Ok (PInt z).

Definition build_chroma_where (filters : pyval) : Result pyval :=
  conditions <-? append_condition filters "gender" "Gender" "$eq" as_is [] ;;
  conditions <-? append_condition filters "color" "Colour" "$eq" as_is conditions ;;
  conditions <-? append_condition filters "usage" "Usage" "$eq" as_is conditions ;;
  conditions <-? append_condition filters "product_type" "ProductType" "$eq" as_is conditions ;;
  conditions <-? append_condition filters "category" "Category" "$eq" as_is conditions ;;
  conditions <-? append_condition filters "max_price" "Price" "$lte" as_int conditions ;;
  conditions <-? append_condition filters "min_price" "Price" "$gte" as_int conditions ;;
  match conditions with
  | [] => Ok (PDict [])
  | [c] => Ok c
  | _ => Ok (PDict [ ("$and", PList conditions) ])
  end.


(** *** database.py *)

(** [dict(r)] of a row. *)
Definition dict_of_row (p : product) : pyval :=
  PDict [ ("ProductId", PInt (ProductId p)); ("Gender", PStr (Gender p));
          ("Category", PStr (Category p)); ("SubCategory", PStr (SubCategory p));
          ("ProductType", PStr (ProductType p)); ("Colour", PStr (Colour p));
          ("Usage", PStr (Usage p)); ("ProductTitle", PStr (ProductTitle p));
          ("ImageURL", PStr (ImageURL p)); ("Price", PInt (Price p));
          ("Rating", PFloat (FFinite (Rating p))); ("Reviews", PInt (Reviews p)) ].

(** An integer SQLite can store: [sqlite3] raises [OverflowError] when
    it is asked to bind a Python [int] outside the signed 64-bit range. *)
Definition in_int64 (z : Z) : bool :=
  (-9223372036854775808 <=? z)%Z && (z <=? 9223372036854775807)%Z.

(** [SELECT * FROM products WHERE ProductId IN (...)]: the table has no
    index and the statement no ORDER BY, so the rows come in scan order. *)
Definition select_in (ids : list Z) : list product :=
  filter (fun p => existsb (Z.eqb (ProductId p)) ids) (products_table w).

(** The identifiers are converted by [int] first, all of them; then
    they are bound, and the binding refuses the first one that does not
    fit 64 bits.  (The list is taken to be no longer than the number of
    placeholders SQLite allows in a statement.) *)
Definition get_products_by_ids (product_ids : list string) : Result (list product) :=
  match product_ids with
  | [] => Ok []
  | _ =>
      ids <-? mapR (int_of_str w) product_ids ;;
      if forallb in_int64 ids then Ok (select_in ids) else Raise OverflowError
  end.

(** [fetchone()] of [SELECT * FROM products WHERE ProductId = ?], for an
    integer [product_id]: [None] when no row carries it. *)
Definition get_product_by_id (product_id : Z) : Result (option product) :=
  if in_int64 product_id
  then Ok (find (fun p => (ProductId p =? product_id)%Z) (products_table w))
  else Raise OverflowError.

(** *** The Result Composer *)

Definition no_results_advice : string :=
  "I couldn't find products matching your query. Try different keywords!".

Definition digest_line (p : product) : string :=
  fstr [ "- "; ProductTitle p; " ("; Colour p; ", â‚¹"; str_of_int (Price p); ")" ].

Definition advice_prompt (query : string) (products : list product) : string :=
  fstr [
    "You are a friendly AI fashion stylist. A customer asked: "; dq; query; dq; nl;
    nl;
    "Top matching products found:"; nl;
    String.concat nl (map digest_line (firstn 4 products)); nl;
    nl;
    "Give a SHORT, enthusiastic fashion advice response (2-3 sentences max) explaining why these products match and any styling tips. Be conversational and helpful. Do NOT list the products again." ].

Definition advice_fallback (query : string) (products : list product) : string :=
  fstr [ "Great picks! Here are "; str_of_int (Z.of_nat (length products));
         " items that match '"; query;
         "'. These selections are curated based on your preferences." ].

Definition generate_fashion_advice (query : string) (products : list product) : M string :=
  match products with
  | [] => ret no_results_advice
  | _ =>
      try_except
        (_generate (advice_prompt query products))
        (fun _ => ret (advice_fallback query products))
  end.

Definition outfit_prompt (base_product : product) (complement_products : list product) : string :=
  fstr [
    "You are a fashion stylist. Someone is looking at:"; nl;
    dq; ProductTitle base_product; dq; " ("; Colour base_product; ", "; Usage base_product; ")"; nl;
    nl;
    "Suggest how to style it with these complementary items (1-2 sentences, be specific and stylish):"; nl;
    String.concat ", " (map ProductTitle (firstn 3 complement_products)) ].

Definition generate_outfit_advice (base_product : product) (complement_products : list product)
  : M string :=
  match complement_products with
  | [] => ret "Complete your look with these complementary items!"
  | _ =>
      try_except
        (_generate (outfit_prompt base_product complement_products))
        (fun _ => ret "Complete your look with these perfectly matched items! Mix and match for a stylish outfit.")
  end.

(** *** The three entry points *)

Definition rows (products : list product) : pyval := PList (map dict_of_row products).

Definition text_search (query : string) (n_results : Z) : M pyval :=
  (* Step 1: parse query *)
  filters <- parse_query_with_gemini query ;;
  phrase <- lift (py_get filters "search_text") ;;
  let search_text := py_or phrase (PStr query) in
  (* Step 2: ChromaDB search *)
  where_clause <- lift (build_chroma_where filters) ;;
  results <- try_except
    (if truthy where_clause
     then collection_query search_text (Z.min n_results 50) (Some where_clause)
     else collection_query search_text (Z.min n_results 50) None)
    (fun _ => collection_query search_text (Z.min n_results 50) None) ;;
  (* Step 3: fetch product details *)
  match results with
  | [] | [] :: _ =>
      ret (PDict [ ("products", PList []);
                   ("advice", PStr "No products found matching your query.");
                   ("filters", filters) ])
  | product_ids :: _ =>
      products <- lift (get_products_by_ids product_ids) ;;
      (* Step 4: generate fashion advice *)
      advice <- generate_fashion_advice query (firstn 4 products) ;;
      ret (PDict [ ("products", rows products); ("advice", PStr advice);
                   ("filters", filters); ("search_text", search_text) ])
  end.

Definition analysis_prompt : string :=
  fstr [
    "Analyze this clothing/fashion image and extract:"; nl;
    "Return ONLY valid JSON (no markdown)."; nl;
    "{"; nl;
    "  "; dq; "description"; dq; ": "; dq; "detailed description of the clothing item"; dq; ","; nl;
    "  "; dq; "product_type"; dq; ": "; dq; "e.g. Shirts, Jeans, Tops, Sneakers, etc."; dq; ","; nl;
    "  "; dq; "color"; dq; ": "; dq; "primary color"; dq; ","; nl;
    "  "; dq; "style"; dq; ": "; dq; "e.g. casual, formal, sporty"; dq; ","; nl;
    "  "; dq; "gender"; dq; ": "; dq; "Men, Women, Boys, Girls, or Unisex"; dq; ","; nl;
    "  "; dq; "search_query"; dq; ": "; dq; "best search query to find similar items"; dq; nl;
    "}" ].

(** The dict of the [except] branch of [image_search]. *)
Definition fallback_analysis : pyval :=
  PDict [ ("description", PStr "clothing item"); ("search_query", PStr "fashion clothing");
          ("color", PNone); ("gender", PNone) ].

(** [x not in ["Unisex", None]] *)
Definition not_unisex_or_none (x : pyval) : bool :=
  match x with
  | PNone => false
  | PStr s => negb (s =? "Unisex")%string
  | _ => true
  end.

Definition image_advice (description : string) : string :=
  fstr [ "ðŸ” Found similar items to your uploaded image. I detected: **"; description;
         "**. Here are the closest matches from our collection:" ].

Definition image_search (image_bytes : list Byte.byte) (n_results : Z) : M pyval :=
  (* Step 1: analyze image with Gemini Vision *)
  analysis <- try_except
    (text <- _generate_with_image analysis_prompt image_bytes ;;
     let text := strip_fences w text in
     lift (json_loads w text))
    (fun _ => ret fallback_analysis) ;;
  (* Step 2: ChromaDB search *)
  description <- lift (py_get_default analysis "description" (PStr "fashion")) ;;
  search_text <- lift (py_get_default analysis "search_query" description) ;;
  (* [analysis.get("gender") if analysis.get("gender") not in [...] else None]:
     the test is evaluated first, then the value; both read the same entry *)
  tested <- lift (py_get analysis "gender") ;;
  gender <- lift (py_get analysis "gender") ;;
  color <- lift (py_get analysis "color") ;;
  let filters :=
    PDict [ ("gender", if not_unisex_or_none tested then gender else PNone);
            ("color", color); ("max_price", PNone); ("min_price", PNone);
            ("usage", PNone); ("product_type", PNone); ("category", PNone) ] in
  where_clause <- lift (build_chroma_where filters) ;;
  results <- try_except
    (if truthy where_clause
     then collection_query search_text n_results (Some where_clause)
     else collection_query search_text n_results None)
    (fun _ => collection_query search_text n_results None) ;;
  let product_ids := match results with [] => [] | ids0 :: _ => ids0 end in
  products <- lift (get_products_by_ids product_ids) ;;
  (* Step 3: generate advice *)
  detected <- lift (py_get_default analysis "description" (PStr "a clothing item")) ;;
  let advice := image_advice (py_str w detected) in
  ret (PDict [ ("products", rows products); ("advice", PStr advice);
               ("analysis", analysis); ("search_text", search_text) ]).

(** The rule table of the complementary query. *)
Definition complement_query (product : product) : string :=
  if existsb (String.eqb (SubCategory product)) ["Topwear"; "Topwear"] then
    fstr [ "bottoms jeans trousers for "; Gender product; " "; Usage product; " ";
           Colour product ]
  else if existsb (String.eqb (SubCategory product)) ["Bottomwear"] then
    fstr [ "tops shirts for "; Gender product; " "; Usage product ]
  else if existsb (String.eqb (SubCategory product)) ["Footwear"; "Flip Flops"; "Shoes"] then
    fstr [ "casual "; Usage product; " outfit for "; Gender product ]
  else
    fstr [ Usage product; " fashion for "; Gender product ].

Definition get_outfit_recommendations (product_id : Z) : M pyval :=
  product <- lift (get_product_by_id product_id) ;;
  match product with
  | None => ret (PDict [ ("products", PList []); ("advice", PStr "Product not found.") ])
  | Some product =>
      let complement := complement_query product in
      results <- collection_query (PStr complement) 6
                   (Some (condition "Gender" "$eq" (PStr (Gender product)))) ;;
      (* filter out the current product itself *)
      let product_ids :=
        filter (fun pid => negb (pid =? str_of_int product_id)%string)
               (match results with [] => [] | ids0 :: _ => ids0 end) in
      products <- lift (get_products_by_ids (firstn 6 product_ids)) ;;
      advice <- generate_outfit_advice product products ;;
      ret (PDict [ ("products", rows products); ("advice", PStr advice);
                   ("base_product", dict_of_row product) ])
  end.

End Pipeline.

(** ** Properties of results and of worlds *)

(** A result dict in the shape the route layer reads: a list under
    ["products"] and a string under ["advice"]. *)
Definition valid_result (v : pyval) : bool :=
  match v with
  | PDict d =>
      match assoc d "products", assoc d "advice" with
      | Some (PList _), Some (PStr _) => true
      | _, _ => false
      end
  | _ => false
  end.

Definition is_completion (ev : event) : bool :=
  match ev with
  | EvQuery _ _ _ => false
  | _ => true
  end.

(** The index has answered, with identifiers the store can look up. *)
Definition answers_with_rows (w : World) (answer : Result (list (list string))) : Prop :=
  exists results products,
    answer = Ok results /\ get_products_by_ids w (hd [] results) = Ok products.

(** The query a search asks at the history [h] gets such an answer, or
    it raises and the query asked next, the same without a predicate,
    gets one. *)
Definition last_query_answers (w : World) (h : trace) (text : pyval) (k : Z)
    (where_ : option pyval) : Prop :=
  answers_with_rows w (chroma_query w h text k where_) \/
  ((exists e, chroma_query w h text k where_ = Raise e) /\
   answers_with_rows w (chroma_query w (h ++ [EvQuery text k where_]) text k None)).

(** ** The Filter Compiler in the words of the specification

    One condition per set field, in the order the compiler visits them. *)
Inductive filter_field : Type :=
| FGender | FColor | FUsage | FProductType | FCategory | FMaxPrice | FMinPrice.

Definition all_fields : list filter_field :=
  [FGender; FColor; FUsage; FProductType; FCategory; FMaxPrice; FMinPrice].

Definition field_key (f : filter_field) : string :=
  match f with
  | FGender => "gender"
  | FColor => "color"
  | FUsage => "usage"
  | FProductType => "product_type"
  | FCategory => "category"
  | FMaxPrice => "max_price"
  | FMinPrice => "min_price"
  end.

Definition field_value (d : list (string * pyval)) (f : filter_field) : pyval :=
  match assoc d (field_key f) with
  | Some v => v
  | None => PNone
  end.

(** Equality for the five attributes, [<=] for the upper and [>=] for the
    lower price bound. *)
Definition field_condition (w : World) (d : list (string * pyval)) (f : filter_field)
  : Result pyval :=
  let v := field_value d f in
  match f with
  | FGender => Ok (condition "Gender" "$eq" v)
  | FColor => Ok (condition "Colour" "$eq" v)
  | FUsage => Ok (condition "Usage" "$eq" v)
  | FProductType => Ok (condition "ProductType" "$eq" v)
  | FCategory => Ok (condition "Category" "$eq" v)
  | FMaxPrice => z <-? py_int w v ;; Ok (condition "Price" "$lte" (PInt z))
  | FMinPrice => z <-? py_int w v ;; Ok (condition "Price" "$gte" (PInt z))
  end.

Definition is_none (v : pyval) : bool :=
  match v with
  | PNone => true
  | _ => false
  end.

(** The fields of a Filter Set that are not null ... *)
Definition non_null_fields (d : list (string * pyval)) : list filter_field :=
  filter (fun f => negb (is_none (field_value d f))) all_fields.

(** ... and the ones the compiler's [if filters.get(key):] lets through. *)
Definition set_fields (d : list (string * pyval)) : list filter_field :=
  filter (fun f => truthy (field_value d f)) all_fields.

(** Zero conditions: the empty predicate; one: that condition as it is;
    two or more: their conjunction. *)
Definition combine_conditions (conditions : list pyval) : pyval :=
  match conditions with
  | [] => PDict []
  | [c] => c
  | _ => PDict [ ("$and", PList conditions) ]
  end.

(** ** Concrete worlds *)

Module Examples.

Definition shirt : product :=
  mkProduct 1 "Blue Formal Shirt" "Men" "Apparel" "Topwear" "Shirts" "Blue" "Formal"
            "http://img/1.jpg" 1500 (42 # 10) 120.

Definition jeans : product :=
  mkProduct 2 "Black Slim Jeans" "Men" "Apparel" "Bottomwear" "Jeans" "Black" "Casual"
            "http://img/2.jpg" 2000 (45 # 10) 80.

Definition sneakers : product :=
  mkProduct 3 "White Sneakers" "Men" "Footwear" "Shoes" "Casual Shoes" "White" "Casual"
            "http://img/3.jpg" 2500 (39 # 10) 310.

Definition table : list product := [shirt; jeans; sneakers].

(** [int] on the decimal strings ingestion writes. *)
Definition decimal_int (s : string) : Result Z :=
  match NilZero.int_of_string s with
  | Some d => Ok (Z.of_int d)
  | None => Raise ValueError
  end.

(** The JSON text [{"search_text": "formal shirts", "gender": "Men"}]
    and the value [json.loads] gives for it. *)
Definition men_shirts_json : string :=
  fstr [ "{"; dq; "search_text"; dq; ": "; dq; "formal shirts"; dq; ", ";
         dq; "gender"; dq; ": "; dq; "Men"; dq; "}" ].

Definition men_shirts : pyval :=
  PDict [ ("search_text", PStr "formal shirts"); ("gender", PStr "Men") ].

(** A [json.loads] that knows the one text above; the other texts used
    in the examples are no JSON. *)
Definition loads (text : string) : Result pyval :=
  if (text =? men_shirts_json)%string then Ok men_shirts else Raise JSONDecodeError.

Definition unavailable {A : Type} : Result A := Raise (ServiceError "unavailable").

Definition world_of
    (gemini : trace -> string -> Result string)
    (chroma : trace -> pyval -> Z -> option pyval -> Result (list (list string))) : World :=
  mkWorld gemini (fun _ _ _ => unavailable) chroma table
          (fun text => text) loads decimal_int (fun _ => "?").

(** The jeans rank first, the shirt second. *)
Definition ranking : list (list string) := [["2"; "1"]].

(** No language model; the index answers every query. *)
Definition world_no_model : World :=
  world_of (fun _ _ => unavailable) (fun _ _ _ _ => Ok ranking).

(** Neither the language model nor the index is reachable. *)
Definition world_offline : World :=
  world_of (fun _ _ => unavailable) (fun _ _ _ _ => unavailable).

(** A model that extracts filters when asked to and writes advice
    otherwise. *)
Definition talkative (h : trace) (prompt : string) : Result string :=
  if String.prefix "You are a fashion search assistant." prompt
  then Ok men_shirts_json
  else Ok "These pieces pair well.".

(** The index rejects every predicate and answers unfiltered queries. *)
Definition world_rejecting_predicates : World :=
  world_of talkative
           (fun _ _ _ where_ => match where_ with
                                | Some _ => Raise (ServiceError "bad where clause")
                                | None => Ok ranking
                                end).

(** The model extracts filters, the index is down. *)
Definition world_index_down : World :=
  world_of talkative (fun _ _ _ _ => unavailable).

(** The index returns the base product among the candidates. *)
Definition world_outfit : World :=
  world_of talkative (fun _ _ _ _ => Ok [["1"; "2"; "3"]]).

End Examples.

(** ** database.py: the listing *)

(** [get_all_products(limit)], for [limit] an integer or [None].  The
    [LIMIT] clause is added only when [limit] is true, and the number is
    written into the statement: SQLite reads a negative [LIMIT] as no
    limit, and rejects one that does not fit 64 bits ([datatype
    mismatch]). *)
Definition get_all_products (w : World) (limit : option Z) : Result (list product) :=
  match limit with
  | None => Ok (products_table w)
  | Some n =>
      if truthy (PInt n)
      then if in_int64 n
           then if (n <? 0)%Z then Ok (products_table w)
                else Ok (firstn (Z.to_nat n) (products_table w))
           else Raise (DatabaseError "datatype mismatch")
      else Ok (products_table w)
  end.

(** ** setup_database.py: the simulated prices *)

Definition PRICE_MAP : list (string * (Z * Z)) :=
  [ ("Shirts", (599, 2499)); ("Tshirts", (299, 1499)); ("Tops", (399, 1999));
    ("Jeans", (799, 3499)); ("Trousers", (699, 2999)); ("Shorts", (399, 1499));
    ("Skirts", (499, 1999)); ("Dresses", (699, 3999)); ("Leggings", (299, 999));
    ("Track Pants", (499, 1499)); ("Sweatshirts", (599, 2499)); ("Jackets", (999, 5999));
    ("Sweaters", (699, 2999)); ("Sandals", (399, 2499)); ("Casual Shoes", (699, 3999));
    ("Sports Shoes", (799, 4999)); ("Heels", (699, 3499)); ("Flip Flops", (199, 799));
    ("Flats", (399, 1999)); ("Sneakers", (699, 3999)); ("Loafers", (599, 2999)) ].

Definition DEFAULT_PRICE_RANGE : Z * Z := (499, 2999).

(** [PRICE_MAP.get(product_type, DEFAULT_PRICE_RANGE)] *)
Fixpoint price_range (table : list (string * (Z * Z))) (product_type : string) : Z * Z :=
  match table with
  | [] => DEFAULT_PRICE_RANGE
  | (k, range) :: table' =>
      if (k =? product_type)%string then range else price_range table' product_type
  end.

(** [generate_price]; [randint] stands for [random.randint], whose
    draw lies between its two arguments. *)
Definition generate_price (randint : Z -> Z -> Z) (product_type : string) : Z :=
  let (low, high) := price_range PRICE_MAP product_type in
  randint (low / 100) (high / 100) * 100.

(** ** app.py: the JSON routes

    A route takes what Flask hands it (the parsed JSON body, the
    uploaded file, the path parameter) and returns the body and the
    status of its response.  The conversation is the [conversation]
    entry of the session, absent until the first search. *)

Record response : Type := mkResponse {
  body : pyval;
  status : Z
}.

Definition error_response (message : string) : response :=
  mkResponse (PDict [ ("error", PStr message) ]) 400.

(** [len(x)] *)
Definition py_len (v : pyval) : Result Z :=
  match v with
  | PStr s => Ok (Z.of_nat (String.length s))
  | PList l => Ok (Z.of_nat (length l))
  | PDict d => Ok (Z.of_nat (length d))
  | _ => Raise TypeError
  end.

Definition turn (role text : pyval) : pyval :=
  PDict [ ("role", role); ("text", text) ].

Section Routes.

Variable w : World.

(** [str.strip] *)
Variable strip : string -> string.

(** [x.strip()] *)
Definition py_strip (v : pyval) : Result string :=
  match v with
  | PStr s => Ok (strip s)
  | _ => Raise AttributeError
  end.

Definition api_search (data : pyval) (conversation : option (list pyval))
  : M (response * option (list pyval)) :=
  raw <- lift (py_get_default data "query" (PStr EmptyString)) ;;
  query <- lift (py_strip raw) ;;
  if negb (truthy (PStr query)) then
    ret (error_response "Query is required", conversation)
  else
    (* add to conversation history *)
    let conversation := match conversation with Some turns => turns | None => [] end in
    let conversation := conversation ++ [turn (PStr "user") (PStr query)] in
    result <- text_search w query 12 ;;
    advice <- lift (py_get_default result "advice" (PStr EmptyString)) ;;
    let conversation := conversation ++ [turn (PStr "assistant") advice] in
    products <- lift (py_getitem result "products") ;;
    advice <- lift (py_get_default result "advice" (PStr EmptyString)) ;;
    filters <- lift (py_get_default result "filters" (PDict [])) ;;
    products_again <- lift (py_getitem result "products") ;;
    count <- lift (py_len products_again) ;;
    ret (mkResponse (PDict [ ("products", products); ("advice", advice);
                             ("filters", filters); ("count", PInt count) ]) 200,
         Some conversation).

(** [request.files] as far as the route reads it: the upload named
    [image], if any, with its file name and content. *)
Definition api_image_search (image : option (string * list Byte.byte)) : M response :=
  match image with
  | None => ret (error_response "No image provided")
  | Some (filename, content) =>
      if negb (truthy (PStr filename)) then ret (error_response "No image selected")
      else
        result <- image_search w content 12 ;;
        products <- lift (py_getitem result "products") ;;
        advice <- lift (py_get_default result "advice" (PStr EmptyString)) ;;
        analysis <- lift (py_get_default result "analysis" (PDict [])) ;;
        products_again <- lift (py_getitem result "products") ;;
        count <- lift (py_len products_again) ;;
        ret (mkResponse (PDict [ ("products", products); ("advice", advice);
                                 ("analysis", analysis); ("count", PInt count) ]) 200)
  end.

Definition api_recommend (product_id : Z) : M response :=
  result <- get_outfit_recommendations w product_id ;;
  products <- lift (py_get_default result "products" (PList [])) ;;
  advice <- lift (py_get_default result "advice" (PStr EmptyString)) ;;
  ret (mkResponse (PDict [ ("products", products); ("advice", advice) ]) 200).

End Routes.

(** ** More concrete worlds *)

Module Scenes.

(** [str.strip] on ASCII blanks. *)
Definition is_blank (c : ascii) : bool :=
  match c with
  | " "%char | "009"%char | "010"%char | "011"%char | "012"%char | "013"%char => true
  | _ => false
  end.

Fixpoint lstrip (l : list ascii) : list ascii :=
  match l with
  | c :: l' => if is_blank c then lstrip l' else l
  | [] => []
  end.

Definition strip (s : string) : string :=
  string_of_list_ascii (rev (lstrip (rev (lstrip (list_ascii_of_string s))))).

(** The JSON text [{"description": "grey hoodie", "color": "Grey",
    "gender": "Unisex", "search_query": null}] and its value. *)
Definition hoodie_json : string :=
  fstr [ "{"; dq; "description"; dq; ": "; dq; "grey hoodie"; dq; ", ";
         dq; "color"; dq; ": "; dq; "Grey"; dq; ", ";
         dq; "gender"; dq; ": "; dq; "Unisex"; dq; ", ";
         dq; "search_query"; dq; ": null}" ].

Definition hoodie : pyval :=
  PDict [ ("description", PStr "grey hoodie"); ("color", PStr "Grey");
          ("gender", PStr "Unisex"); ("search_query", PNone) ].

(** A [json.loads] for the two texts of the scenes: the object above
    and the array [[]]. *)
Definition loads (text : string) : Result pyval :=
  if (text =? hoodie_json)%string then Ok hoodie
  else if (text =? "[]")%string then Ok (PList [])
  else Raise JSONDecodeError.

Definition world_of
    (gemini : trace -> string -> Result string)
    (vision : trace -> string -> list Byte.byte -> Result string)
    (chroma : trace -> pyval -> Z -> option pyval -> Result (list (list string))) : World :=
  mkWorld gemini vision chroma Examples.table
          (fun text => text) loads Examples.decimal_int (fun _ => "?").

(** The vision model describes a unisex hoodie; the index answers. *)
Definition world_hoodie : World :=
  world_of (fun _ _ => Examples.unavailable) (fun _ _ _ => Ok hoodie_json)
           (fun _ _ _ _ => Ok Examples.ranking).

(** The language model answers a JSON array where an object is due. *)
Definition world_array : World :=
  world_of (fun _ _ => Ok "[]") (fun _ _ _ => Examples.unavailable)
           (fun _ _ _ _ => Ok Examples.ranking).

(** The index finds nothing. *)
Definition world_no_match : World :=
  world_of (fun _ _ => Examples.unavailable) (fun _ _ _ => Examples.unavailable)
           (fun _ _ _ _ => Ok [[]]).

(** The index returns an identifier that is no number. *)
Definition world_bad_id : World :=
  world_of (fun _ _ => Examples.unavailable) (fun _ _ _ => Examples.unavailable)
           (fun _ _ _ _ => Ok [["2"; "two"]]).


(** A draw of [random.randint]: the lower end. *)
Definition lowest (a b : Z) : Z := a.

End Scenes.

(** * Theorems *)

(** ** The Filter Compiler *)

Section FilterCompiler.

Variable w : World.

Lemma append_condition_dict (d : list (string * pyval)) (f : filter_field)
    (field op : string) (conv : pyval -> Result pyval) (conditions : list pyval) :
  append_condition (PDict d) (field_key f) field op conv conditions =
  if truthy (field_value d f)
  then value <-? conv (field_value d f) ;; Ok (conditions ++ [condition field op value])
  else Ok conditions.
Proof.
  unfold append_condition, py_get, py_get_default, py_getitem, field_value.
  simpl. destruct (assoc d (field_key f)) as [v|]; simpl.
  - destruct (truthy v); reflexivity.
  - reflexivity.
Qed.

Ltac compile_step f :=
  rewrite (append_condition_dict _ f);
  destruct (truthy (field_value _ f));
  unfold as_is, as_int; cbn [filter mapR field_condition bindR app];
  try (destruct (py_int _ (field_value _ f)); cbn [filter mapR field_condition bindR app]).

(** The compiler visits the seven fields in a fixed order and keeps a
    condition for each one whose value is true in Python's sense. *)
Lemma build_chroma_where_set_fields (d : list (string * pyval)) :
  build_chroma_where w (PDict d) =
  conditions <-? mapR (field_condition w d) (set_fields d) ;;
  Ok (combine_conditions conditions).
Proof.
  unfold build_chroma_where, set_fields, all_fields.
  cbn [filter mapR field_condition].
  compile_step FGender; compile_step FColor; compile_step FUsage;
    compile_step FProductType; compile_step FCategory;
    compile_step FMaxPrice; try reflexivity;
    compile_step FMinPrice; reflexivity.
Qed.

Lemma build_chroma_where_dict (filters where_clause : pyval) :
  build_chroma_where w filters = Ok where_clause -> exists d, filters = PDict d.
Proof.
  destruct filters; try discriminate. intros _. eexists; reflexivity.
Qed.

Lemma mapR_Forall2 {A B : Type} (f : A -> Result B) (l : list A) (l' : list B) :
  mapR f l = Ok l' -> Forall2 (fun a b => f a = Ok b) l l'.
Proof.
  revert l'. induction l as [|a l IH]; intros l' H; simpl in H.
  - injection H as <-. constructor.
  - destruct (f a) as [b|] eqn:Hb; simpl in H; try discriminate.
    destruct (mapR f l) as [bs|]; simpl in H; try discriminate.
    injection H as <-. constructor; auto.
Qed.

Lemma set_fields_NoDup (d : list (string * pyval)) : NoDup (set_fields d).
Proof.
  apply NoDup_filter. unfold all_fields.
  repeat constructor; simpl; intuition discriminate.
Qed.

End FilterCompiler.

(** C4 (as amended).  The compiler tests each field with Python's truth
    value, so the fields that count are the ones set to a true value (not
    null, not zero, not the empty string).  With none of them the
    predicate is empty; with exactly one it is that field's condition,
    unwrapped; with two or more it is the [$and] of exactly one condition
    per such field ([$eq] for gender, color, usage, product type and
    category, [$lte] for the upper and [$gte] for the lower price
    bound), as long as [int] accepts the price bounds; if it does not,
    its error is the compiler's. *)
Theorem filter_compiler_by_set_fields (w : World) (d : list (string * pyval)) :
  (set_fields d = [] -> build_chroma_where w (PDict d) = Ok (PDict [])) /\
  (forall f c, set_fields d = [f] -> field_condition w d f = Ok c ->
     build_chroma_where w (PDict d) = Ok c) /\
  (forall conditions, (2 <= length (set_fields d))%nat ->
     mapR (field_condition w d) (set_fields d) = Ok conditions ->
     build_chroma_where w (PDict d) = Ok (PDict [ ("$and", PList conditions) ]) /\
     Forall2 (fun f c => field_condition w d f = Ok c) (set_fields d) conditions) /\
  (forall e, mapR (field_condition w d) (set_fields d) = Raise e ->
     build_chroma_where w (PDict d) = Raise e) /\
  NoDup (set_fields d).
Proof.
  rewrite build_chroma_where_set_fields.
  split; [| split; [| split; [| split]]].
  - intros ->. reflexivity.
  - intros f c -> Hc. simpl. rewrite Hc. reflexivity.
  - intros conditions Hlen Hmap. rewrite Hmap. simpl.
    pose proof (mapR_Forall2 _ _ _ Hmap) as HF. split; [| exact HF].
    apply Forall2_length in HF. rewrite HF in Hlen.
    destruct conditions as [|c1 [|c2 cs]]; simpl in Hlen; try lia. reflexivity.
  - intros e ->. reflexivity.
  - apply set_fields_NoDup.
Qed.

(** C4, the claim as stated, fails: a Filter Set whose only non-null
    field is a price bound of zero compiles to the empty predicate, not
    to the condition [Price <= 0]. *)
Lemma zero_price_bound_is_dropped :
  let d := [ ("search_text", PStr "free shirts"); ("max_price", PInt 0);
             ("min_price", PNone); ("gender", PNone); ("color", PNone);
             ("usage", PNone); ("product_type", PNone); ("category", PNone) ] in
  non_null_fields d = [FMaxPrice] /\
  field_condition Examples.world_no_model d FMaxPrice
    = Ok (condition "Price" "$lte" (PInt 0)) /\
  build_chroma_where Examples.world_no_model (PDict d) = Ok (PDict []).
Proof.
  cbv zeta. repeat split.
Qed.

(** ** The Attribute Extractor *)

Lemma parse_query_run (w : World) (query : string) (tr : trace) :
  parse_query_with_gemini w query tr =
  (Ok match gemini_text w tr (parse_prompt query) with
      | Ok text =>
          match json_loads w (strip_fences w text) with
          | Ok v => v
          | Raise _ => fallback_filters query
          end
      | Raise _ => fallback_filters query
      end,
   tr ++ [EvGenerate (parse_prompt query)]).
Proof.
  unfold parse_query_with_gemini, try_except, bind, _generate, lift, ret.
  destruct (gemini_text w tr (parse_prompt query)) as [text|]; [| reflexivity].
  destruct (json_loads w (strip_fences w text)); reflexivity.
Qed.

(** X25.  The extractor never raises and makes its one completion
    request.  When the completion call raises, or answers a text that
    [json.loads] rejects, it returns the Filter Set whose search phrase is
    the raw query and whose other seven fields are null; a text that
    [json.loads] accepts is returned as parsed, whatever its shape. *)
Theorem extractor_falls_back_to_raw_query (w : World) (query : string) (tr : trace) :
  (exists filters,
     parse_query_with_gemini w query tr
     = (Ok filters, tr ++ [EvGenerate (parse_prompt query)])) /\
  ((exists e, gemini_text w tr (parse_prompt query) = Raise e) \/
   (exists text e, gemini_text w tr (parse_prompt query) = Ok text /\
                   json_loads w (strip_fences w text) = Raise e) ->
   fst (parse_query_with_gemini w query tr) = Ok (fallback_filters query) /\
   py_get (fallback_filters query) "search_text" = Ok (PStr query) /\
   forall f, py_get (fallback_filters query) (field_key f) = Ok PNone) /\
  (forall text v,
     gemini_text w tr (parse_prompt query) = Ok text ->
     json_loads w (strip_fences w text) = Ok v ->
     fst (parse_query_with_gemini w query tr) = Ok v).
Proof.
  rewrite parse_query_run. cbn [fst]. split; [| split].
  - eexists. reflexivity.
  - intros H. split; [| split].
    + destruct H as [[e ->] | (text & e & -> & ->)]; reflexivity.
    + reflexivity.
    + intros []; reflexivity.
  - intros text v -> ->. reflexivity.
Qed.

Lemma extractor_falls_back_when_model_is_down :
  fst (parse_query_with_gemini Examples.world_no_model "jeans" [])
    = Ok (fallback_filters "jeans").
Proof.
  apply (extractor_falls_back_to_raw_query Examples.world_no_model "jeans" []).
  left. exists (ServiceError "unavailable"). reflexivity.
Defined.

(** C6.  The claim fails on an answer that is JSON of another shape
    than an object: when the model answers the array [[]], the extractor
    returns that list, not the fallback Filter Set, and the text search
    that reads it raises. *)
Theorem extractor_returns_array_as_parsed :
  gemini_text Scenes.world_array [] (parse_prompt "jeans") = Ok "[]" /\
  fst (parse_query_with_gemini Scenes.world_array "jeans" []) = Ok (PList []) /\
  PList [] <> fallback_filters "jeans" /\
  fst (text_search Scenes.world_array "jeans" 12 []) = Raise AttributeError.
Proof.
  split; [reflexivity | split; [reflexivity | split; [discriminate | reflexivity]]].
Qed.

(** ** The Result Composer *)

(** C7.  On an empty product list the composer answers the fixed
    message and makes no request: the trace is the one it was given.  (On
    any other list it makes exactly one completion request.) *)
Theorem composer_empty_list_no_request (w : World) (query : string) (tr : trace) :
  generate_fashion_advice w query [] tr
  = (Ok "I couldn't find products matching your query. Try different keywords!", tr) /\
  forall p products,
    snd (generate_fashion_advice w query (p :: products) tr)
    = tr ++ [EvGenerate (advice_prompt query (p :: products))].
Proof.
  split; [reflexivity |].
  intros p products.
  unfold generate_fashion_advice, try_except, _generate, ret.
  destruct (gemini_text w tr (advice_prompt query (p :: products))); reflexivity.
Qed.

(** ** The Outfit Recommender *)

Lemma get_product_by_id_absent (w : World) (product_id : Z) :
  in_int64 product_id = true ->
  ~ In product_id (map ProductId (products_table w)) ->
  get_product_by_id w product_id = Ok None.
Proof.
  unfold get_product_by_id. intros -> H.
  destruct (find _ _) as [p|] eqn:Hf; [| reflexivity].
  apply find_some in Hf. destruct Hf as [Hin Heq].
  apply Z.eqb_eq in Heq. subst. exfalso. apply H. apply in_map. exact Hin.
Qed.

Lemma get_product_by_id_found (w : World) (product_id : Z) (p : product) :
  get_product_by_id w product_id = Ok (Some p) ->
  in_int64 product_id = true /\
  find (fun r => (ProductId r =? product_id)%Z) (products_table w) = Some p.
Proof.
  unfold get_product_by_id. destruct (in_int64 product_id); [| discriminate].
  intros H. injection H as H. split; [reflexivity | exact H].
Qed.

(** C8 (as amended).  For an identifier no row of the store carries,
    [get_outfit_recommendations] returns the dict with no products and
    the advice [Product not found.], without raising and without any
    request, as long as the identifier fits 64 bits; if it does not, the
    store lookup raises [OverflowError], which the caller gets. *)
Theorem outfit_unknown_product (w : World) (product_id : Z) (tr : trace) :
  ~ In product_id (map ProductId (products_table w)) ->
  (in_int64 product_id = true ->
   get_outfit_recommendations w product_id tr
   = (Ok (PDict [ ("products", PList []); ("advice", PStr "Product not found.") ]), tr)) /\
  (in_int64 product_id = false ->
   get_outfit_recommendations w product_id tr = (Raise OverflowError, tr)).
Proof.
  intros H. unfold get_outfit_recommendations, bind, lift. split; intros Hrange.
  - rewrite (get_product_by_id_absent w product_id Hrange H). reflexivity.
  - unfold get_product_by_id. rewrite Hrange. reflexivity.
Qed.

Lemma outfit_unknown_product_9 :
  get_outfit_recommendations Examples.world_outfit 9 []
  = (Ok (PDict [ ("products", PList []); ("advice", PStr "Product not found.") ]), []).
Proof.
  apply (outfit_unknown_product Examples.world_outfit 9 []).
  - simpl. intuition discriminate.
  - reflexivity.
Defined.

(** C8, the claim as stated, fails: the identifier 2^63 is in no row of
    the store, and the recommender raises on it. *)
Lemma outfit_identifier_beyond_64_bits :
  ~ In 9223372036854775808 (map ProductId (products_table Examples.world_outfit)) /\
  get_outfit_recommendations Examples.world_outfit 9223372036854775808 []
  = (Raise OverflowError, []).
Proof.
  split; [simpl; intuition discriminate | reflexivity].
Qed.

(** ** Runs of the pipeline *)

Section Runs.

Variable w : World.

Lemma select_in_nil : select_in w [] = [].
Proof.
  unfold select_in. induction (products_table w) as [|p t IH]; simpl; auto.
Qed.

Lemma get_products_by_ids_inv (product_ids : list string) (products : list product) :
  get_products_by_ids w product_ids = Ok products ->
  exists ids, mapR (int_of_str w) product_ids = Ok ids /\
              forallb in_int64 ids = true /\
              products = select_in w ids.
Proof.
  destruct product_ids as [|pid rest].
  - intros H. injection H as <-. exists [].
    split; [reflexivity | split; [reflexivity | symmetry; apply select_in_nil]].
  - unfold get_products_by_ids.
    destruct (mapR (int_of_str w) (pid :: rest)) as [ids|]; cbn [bindR]; [| discriminate].
    destruct (forallb in_int64 ids) eqn:Hrange; [| discriminate].
    intros H. injection H as <-. exists ids. auto.
Qed.

Lemma get_products_by_ids_select (product_ids : list string) (products : list product) :
  get_products_by_ids w product_ids = Ok products ->
  exists ids, mapR (int_of_str w) product_ids = Ok ids /\ products = select_in w ids.
Proof.
  intros H. destruct (get_products_by_ids_inv _ _ H) as (ids & Hids & _ & ->). eauto.
Qed.

Lemma get_products_by_ids_of_ids (product_ids : list string) (ids : list Z) :
  mapR (int_of_str w) product_ids = Ok ids ->
  forallb in_int64 ids = true ->
  get_products_by_ids w product_ids = Ok (select_in w ids).
Proof.
  intros Hids Hrange. unfold get_products_by_ids. destruct product_ids as [|pid rest].
  - simpl in Hids. injection Hids as <-. rewrite select_in_nil. reflexivity.
  - rewrite Hids. cbn [bindR]. rewrite Hrange. reflexivity.
Qed.

Lemma mapR_total {A B : Type} (f : A -> Result B) (l : list A) :
  (forall a, In a l -> exists b, f a = Ok b) -> exists l', mapR f l = Ok l'.
Proof.
  induction l as [|a l IH]; intros H; simpl.
  - eexists; reflexivity.
  - destruct (H a (or_introl eq_refl)) as [b ->].
    destruct IH as [bs ->]; [intros x Hx; apply H; right; exact Hx |].
    simpl. eexists; reflexivity.
Qed.

Lemma mapR_total_within {A B : Type} (f : A -> Result B) (good : B -> bool) (l : list A) :
  (forall a, In a l -> exists b, f a = Ok b /\ good b = true) ->
  exists l', mapR f l = Ok l' /\ forallb good l' = true.
Proof.
  induction l as [|a l IH]; intros H; simpl.
  - exists []. split; reflexivity.
  - destruct (H a (or_introl eq_refl)) as (b & -> & Hb).
    destruct IH as (bs & -> & Hbs); [intros x Hx; apply H; right; exact Hx |].
    simpl. exists (b :: bs). split; [reflexivity |]. simpl. rewrite Hb, Hbs. reflexivity.
Qed.

(** Identifiers that [int] converts to integers of 64 bits are looked
    up without an error. *)
Lemma get_products_by_ids_total (product_ids : list string) :
  (forall pid, In pid product_ids ->
     exists z, int_of_str w pid = Ok z /\ in_int64 z = true) ->
  exists products, get_products_by_ids w product_ids = Ok products.
Proof.
  intros H. destruct (mapR_total_within _ _ _ H) as (ids & Hids & Hrange).
  eexists. apply (get_products_by_ids_of_ids _ _ Hids Hrange).
Qed.

(** The composer always answers, with at most one completion request. *)
Lemma generate_fashion_advice_ok (query : string) (products : list product) (tr : trace) :
  exists advice rest,
    generate_fashion_advice w query products tr = (Ok advice, tr ++ rest) /\
    forallb is_completion rest = true.
Proof.
  unfold generate_fashion_advice, try_except, _generate, ret.
  destruct products as [|p ps].
  - exists no_results_advice, []. rewrite app_nil_r. split; reflexivity.
  - destruct (gemini_text w tr _); eexists; eexists; split; reflexivity.
Qed.

Lemma generate_outfit_advice_ok (base : product) (products : list product) (tr : trace) :
  exists advice rest,
    generate_outfit_advice w base products tr = (Ok advice, tr ++ rest) /\
    forallb is_completion rest = true.
Proof.
  unfold generate_outfit_advice, try_except, _generate, ret.
  destruct products as [|p ps].
  - eexists; exists []. rewrite app_nil_r. split; reflexivity.
  - destruct (gemini_text w tr _); eexists; eexists; split; reflexivity.
Qed.

End Runs.

Ltac step := cbv beta iota.

Ltac unfold_run :=
  unfold text_search, image_search, get_outfit_recommendations,
    bind, try_except, lift, ret, collection_query, _generate_with_image.

(** C5 (as amended).  When the query that carries a non-empty predicate
    fails, [text_search] asks once more, with the same text and limit and
    no predicate, and asks the index nothing else.  The first failure is
    not what the caller sees: when the retry answers (and the store can
    look its identifiers up) the result is a valid result dict whose
    [filters] entry is the extracted Filter Set; when the retry raises,
    that error reaches the caller. *)
Theorem text_search_retries_without_predicate
    (w : World) (query : string) (n : Z) (tr tr1 : trace)
    (filters phrase where_clause : pyval) (e : exn) :
  parse_query_with_gemini w query tr = (Ok filters, tr1) ->
  py_get filters "search_text" = Ok phrase ->
  build_chroma_where w filters = Ok where_clause ->
  truthy where_clause = true ->
  let search_text := py_or phrase (PStr query) in
  let limit := Z.min n 50 in
  let filtered := EvQuery search_text limit (Some where_clause) in
  let retry := EvQuery search_text limit None in
  chroma_query w tr1 search_text limit (Some where_clause) = Raise e ->
  (exists rest,
     snd (text_search w query n tr) = tr1 ++ [filtered; retry] ++ rest /\
     forallb is_completion rest = true) /\
  (forall results products,
     chroma_query w (tr1 ++ [filtered]) search_text limit None = Ok results ->
     get_products_by_ids w (hd [] results) = Ok products ->
     exists d, fst (text_search w query n tr) = Ok (PDict d) /\
               assoc d "filters" = Some filters /\
               valid_result (PDict d) = true) /\
  (forall e', chroma_query w (tr1 ++ [filtered]) search_text limit None = Raise e' ->
     fst (text_search w query n tr) = Raise e').
Proof.
  intros Hparse Hphrase Hbuild Htruthy search_text limit filtered retry Hfail.
  unfold_run. rewrite Hparse. step. rewrite Hphrase. step. rewrite Hbuild. step.
  rewrite Htruthy. fold search_text limit. rewrite Hfail. fold filtered retry.
  assert (Happ : forall rest, ((tr1 ++ [filtered]) ++ [retry]) ++ rest
                              = tr1 ++ [filtered; retry] ++ rest).
  { intros rest. rewrite <- !app_assoc. reflexivity. }
  destruct (chroma_query w (tr1 ++ [filtered]) search_text limit None)
    as [results|e2] eqn:Hretry.
  - split; [| split]; [| | discriminate].
    + destruct results as [|[|pid ids] more]; step.
      * exists []. rewrite <- Happ, app_nil_r. split; reflexivity.
      * exists []. rewrite <- Happ, app_nil_r. split; reflexivity.
      * destruct (get_products_by_ids w (pid :: ids)) as [products|]; step.
        -- destruct (generate_fashion_advice_ok w query (firstn 4 products)
                       ((tr1 ++ [filtered]) ++ [retry])) as (advice & rest & -> & Hrest).
           exists rest. rewrite Happ. split; [reflexivity | exact Hrest].
        -- exists []. rewrite <- Happ, app_nil_r. split; reflexivity.
    + intros results' products H. injection H as <-. intros Hproducts.
      destruct results as [|[|pid ids] more]; step.
      * eexists. repeat split.
      * eexists. repeat split.
      * cbn [hd] in Hproducts. rewrite Hproducts. step.
        destruct (generate_fashion_advice_ok w query (firstn 4 products)
                    ((tr1 ++ [filtered]) ++ [retry])) as (advice & rest & -> & Hrest).
        eexists. repeat split.
  - split; [| split].
    + exists []. rewrite <- Happ, app_nil_r. split; reflexivity.
    + discriminate.
    + intros e' H. injection H as <-. reflexivity.
Qed.

Lemma retry_after_rejected_predicate :
  exists d,
    fst (text_search Examples.world_rejecting_predicates "formal shirts for men" 12 [])
      = Ok (PDict d) /\
    assoc d "filters" = Some Examples.men_shirts /\
    valid_result (PDict d) = true.
Proof.
  destruct (text_search_retries_without_predicate
              Examples.world_rejecting_predicates "formal shirts for men" 12 []
              [EvGenerate (parse_prompt "formal shirts for men")]
              Examples.men_shirts (PStr "formal shirts")
              (condition "Gender" "$eq" (PStr "Men"))
              (ServiceError "bad where clause")
              eq_refl eq_refl eq_refl eq_refl eq_refl) as (_ & Hanswer & _).
  apply (Hanswer Examples.ranking [Examples.shirt; Examples.jeans]); reflexivity.
Defined.

(** C5, the claim as stated, fails: with the index down the predicate
    is non-empty, the filtered query fails, the one retry fails too, and
    [text_search] raises instead of returning a Search Result. *)
Lemma retry_failure_reaches_caller :
  let query := "formal shirts for men" in
  fst (parse_query_with_gemini Examples.world_index_down query []) = Ok Examples.men_shirts /\
  build_chroma_where Examples.world_index_down Examples.men_shirts
    = Ok (condition "Gender" "$eq" (PStr "Men")) /\
  text_search Examples.world_index_down query 12 []
    = (Raise (ServiceError "unavailable"),
       [ EvGenerate (parse_prompt query);
         EvQuery (PStr "formal shirts") 12 (Some (condition "Gender" "$eq" (PStr "Men")));
         EvQuery (PStr "formal shirts") 12 None ]).
Proof.
  cbv zeta. repeat split.
Qed.

(** ** What the entry points absorb *)

Section Resilience.

Variable w : World.

Lemma fallback_filters_compile (query : string) :
  build_chroma_where w (fallback_filters query) = Ok (PDict []).
Proof. reflexivity. Qed.

Lemma image_filters_compile (gender color : pyval) :
  exists where_clause,
    build_chroma_where w
      (PDict [ ("gender", gender); ("color", color); ("max_price", PNone);
               ("min_price", PNone); ("usage", PNone); ("product_type", PNone);
               ("category", PNone) ]) = Ok where_clause.
Proof.
  rewrite build_chroma_where_set_fields.
  unfold set_fields, all_fields, field_value. simpl.
  destruct (truthy gender), (truthy color); simpl; eexists; reflexivity.
Qed.


(** The first index query of a text search whose filters compile. *)
Lemma text_search_first_query (query : string) (n : Z) (tr tr1 : trace)
    (filters phrase where_clause : pyval) :
  parse_query_with_gemini w query tr = (Ok filters, tr1) ->
  py_get filters "search_text" = Ok phrase ->
  build_chroma_where w filters = Ok where_clause ->
  exists rest,
    snd (text_search w query n tr)
    = tr1 ++ EvQuery (py_or phrase (PStr query)) (Z.min n 50)
               (if truthy where_clause then Some where_clause else None) :: rest.
Proof.
  intros Hparse Hphrase Hbuild.
  unfold_run. rewrite Hparse. step. rewrite Hphrase. step. rewrite Hbuild. step.
  destruct (truthy where_clause); step;
    match goal with
    | |- context [chroma_query w tr1 ?text ?k ?wh] =>
        destruct (chroma_query w tr1 text k wh) as [results|]; step;
        try match goal with
            | |- context [chroma_query w ?h text k None] =>
                destruct (chroma_query w h text k None) as [results|]; step
            end
    end;
    try (destruct results as [|[|pid ids] more]; step);
    try (destruct (get_products_by_ids w (pid :: ids)) as [products|]; step);
    try match goal with
        | |- context [generate_fashion_advice _ ?q ?ps ?t] =>
            destruct (generate_fashion_advice_ok w q ps t) as (advice & rest & -> & _)
        end;
    cbn [snd]; rewrite <- ?app_assoc; cbn [app]; eexists; reflexivity.
Qed.

(** The filters of an image search hold at most a gender and a color. *)
Lemma image_filters_where (gender color : pyval) :
  build_chroma_where w
    (PDict [ ("gender", gender); ("color", color); ("max_price", PNone);
             ("min_price", PNone); ("usage", PNone); ("product_type", PNone);
             ("category", PNone) ])
  = Ok (combine_conditions
          ((if truthy gender then [condition "Gender" "$eq" gender] else []) ++
           (if truthy color then [condition "Colour" "$eq" color] else []))).
Proof.
  rewrite build_chroma_where_set_fields.
  unfold set_fields, all_fields, field_value. simpl.
  destruct (truthy gender), (truthy color); reflexivity.
Qed.

(** The first index query of an image search, read off the analysis it
    goes on with: the model's answer, or the fixed one. *)
Lemma image_search_first_query_of_analysis (image_bytes : list Byte.byte) (n : Z)
    (tr : trace) (d : list (string * pyval)) :
  match gemini_vision w tr analysis_prompt image_bytes with
  | Ok text =>
      match json_loads w (strip_fences w text) with
      | Ok v => v
      | Raise _ => fallback_analysis
      end
  | Raise _ => fallback_analysis
  end = PDict d ->
  let get k default := match assoc d k with Some x => x | None => default end in
  let search_text := get "search_query" (get "description" (PStr "fashion")) in
  let gender := if not_unisex_or_none (get "gender" PNone)
                then get "gender" PNone else PNone in
  let where_clause :=
    combine_conditions
      ((if truthy gender then [condition "Gender" "$eq" gender] else []) ++
       (if truthy (get "color" PNone)
        then [condition "Colour" "$eq" (get "color" PNone)] else [])) in
  exists rest,
    snd (image_search w image_bytes n tr)
    = tr ++ [ EvGenerateWithImage analysis_prompt image_bytes;
              EvQuery search_text n
                (if truthy where_clause then Some where_clause else None) ] ++ rest.
Proof.
  intros Hanalysis get search_text gender where_clause.
  unfold_run. step. revert Hanalysis.
  destruct (gemini_vision w tr analysis_prompt image_bytes) as [text|];
    [ destruct (json_loads w (strip_fences w text)) as [v|] |];
    intros Hanalysis; step; rewrite Hanalysis;
    cbn [py_get py_get_default]; step;
    fold (get "description" (PStr "fashion"));
    fold (get "gender" PNone); fold (get "color" PNone);
    change (match assoc d "search_query" with
            | Some x => x
            | None => get "description" (PStr "fashion")
            end) with search_text;
    fold gender;
    rewrite image_filters_where; fold where_clause; step;
    set (tr1 := tr ++ [EvGenerateWithImage analysis_prompt image_bytes]);
    assert (Happ : forall ev rest, (tr1 ++ [ev]) ++ rest
              = tr ++ [EvGenerateWithImage analysis_prompt image_bytes; ev] ++ rest)
      by (intros ev rest; unfold tr1; rewrite <- !app_assoc; reflexivity);
    destruct (truthy where_clause); step;
    match goal with
    | |- context [chroma_query w tr1 search_text n ?wh] =>
        destruct (chroma_query w tr1 search_text n wh) as [results|]; step
    end;
    try match goal with
    | |- context [chroma_query w ?h search_text n None] =>
        destruct (chroma_query w h search_text n None) as [results|]; step
    end;
    try match goal with
    | |- context [get_products_by_ids w ?l] =>
        destruct (get_products_by_ids w l) as [products|]; step
    end;
    cbn [snd];
    first [ rewrite Happ; eexists; reflexivity
          | exists []; rewrite <- Happ, app_nil_r; reflexivity ].
Qed.

Lemma image_search_first_query (image_bytes : list Byte.byte) (n : Z) (tr : trace)
    (text : string) (d : list (string * pyval)) :
  gemini_vision w tr analysis_prompt image_bytes = Ok text ->
  json_loads w (strip_fences w text) = Ok (PDict d) ->
  let get k default := match assoc d k with Some x => x | None => default end in
  let search_text := get "search_query" (get "description" (PStr "fashion")) in
  let gender := if not_unisex_or_none (get "gender" PNone)
                then get "gender" PNone else PNone in
  let where_clause :=
    combine_conditions
      ((if truthy gender then [condition "Gender" "$eq" gender] else []) ++
       (if truthy (get "color" PNone)
        then [condition "Colour" "$eq" (get "color" PNone)] else [])) in
  exists rest,
    snd (image_search w image_bytes n tr)
    = tr ++ [ EvGenerateWithImage analysis_prompt image_bytes;
              EvQuery search_text n
                (if truthy where_clause then Some where_clause else None) ] ++ rest.
Proof.
  intros Hvision Hjson.
  apply image_search_first_query_of_analysis. rewrite Hvision, Hjson. reflexivity.
Qed.

End Resilience.

(** The advice is written, the result dict returned. *)
Ltac composed :=
  match goal with
  | |- context [generate_fashion_advice ?w ?q ?ps ?t] =>
      let advice := fresh "advice" in
      let rest := fresh "rest" in
      destruct (generate_fashion_advice_ok w q ps t) as (advice & rest & -> & _)
  | |- context [generate_outfit_advice ?w ?p ?ps ?t] =>
      let advice := fresh "advice" in
      let rest := fresh "rest" in
      destruct (generate_outfit_advice_ok w p ps t) as (advice & rest & -> & _)
  | _ => idtac
  end;
  eexists; split; reflexivity.

(** C1 (as amended).  A failing language model is absorbed by every
    entry point, and so is a failing first index query of [text_search]
    and [image_search], which is asked again without a predicate.
    [text_search] returns a valid result dict whenever the filters it
    extracted compile and its last index query (the first one, or the
    retry when the first one raises) answers with identifiers the store
    can look up; so does [image_search] whenever the model's answer, if
    it parses, is a JSON object and its last index query answers in that
    way; so does [get_outfit_recommendations] whenever the store lookup
    of the base product returns and, for a product found, its one index
    query answers with identifiers the store can look up. *)
Theorem entry_points_absorb_failures (w : World) :
  (forall query n tr filters tr1 where_clause,
     parse_query_with_gemini w query tr = (Ok filters, tr1) ->
     build_chroma_where w filters = Ok where_clause ->
     (forall text k where_ rest,
        snd (text_search w query n tr) = tr1 ++ EvQuery text k where_ :: rest ->
        last_query_answers w tr1 text k where_) ->
     exists v, fst (text_search w query n tr) = Ok v /\ valid_result v = true) /\
  (forall image_bytes n tr,
     (forall text v,
        gemini_vision w tr analysis_prompt image_bytes = Ok text ->
        json_loads w (strip_fences w text) = Ok v -> exists d, v = PDict d) ->
     (forall text where_ rest,
        snd (image_search w image_bytes n tr)
        = tr ++ EvGenerateWithImage analysis_prompt image_bytes
             :: EvQuery text n where_ :: rest ->
        last_query_answers w (tr ++ [EvGenerateWithImage analysis_prompt image_bytes])
          text n where_) ->
     exists v, fst (image_search w image_bytes n tr) = Ok v /\ valid_result v = true) /\
  (forall product_id tr,
     get_product_by_id w product_id = Ok None \/
     (exists product results products,
        get_product_by_id w product_id = Ok (Some product) /\
        chroma_query w tr (PStr (complement_query product)) 6
          (Some (PDict [ ("Gender", PDict [ ("$eq", PStr (Gender product)) ]) ]))
        = Ok results /\
        get_products_by_ids w
          (firstn 6 (filter (fun pid => negb (pid =? str_of_int product_id)%string)
                            (hd [] results)))
        = Ok products) ->
     exists v, fst (get_outfit_recommendations w product_id tr) = Ok v /\
               valid_result v = true).
Proof.
  split; [| split].
  - intros query n tr filters tr1 where_clause Hparse Hbuild Hlast.
    destruct (build_chroma_where_dict w _ _ Hbuild) as [d ->].
    set (phrase := match assoc d "search_text" with Some x => x | None => PNone end).
    assert (Hphrase : py_get (PDict d) "search_text" = Ok phrase) by reflexivity.
    destruct (text_search_first_query w query n tr tr1 _ phrase where_clause
                Hparse Hphrase Hbuild) as [rest Hrest].
    apply Hlast in Hrest. clear Hlast.
    unfold_run. rewrite Hparse. step. rewrite Hphrase. step. rewrite Hbuild. step.
    destruct (truthy where_clause); step;
      destruct Hrest as [(results & products & Hq & Hp)
                        | ([? Hfail] & results & products & Hq & Hp)];
      [ rewrite Hq | rewrite Hfail; step; rewrite Hq
      | rewrite Hq | rewrite Hfail; step; rewrite Hq ]; step;
      (destruct results as [|[|pid ids] more]; step;
       [ eexists; split; reflexivity
       | eexists; split; reflexivity
       | cbn [hd] in Hp; rewrite Hp; step; composed ]).
  - intros image_bytes n tr Hobject Hlast.
    assert (Hd : exists d,
              match gemini_vision w tr analysis_prompt image_bytes with
              | Ok text =>
                  match json_loads w (strip_fences w text) with
                  | Ok v => v
                  | Raise _ => fallback_analysis
                  end
              | Raise _ => fallback_analysis
              end = PDict d).
    { destruct (gemini_vision w tr analysis_prompt image_bytes) as [text|] eqn:Hv;
        [ destruct (json_loads w (strip_fences w text)) as [v|] eqn:Hj;
          [ exact (Hobject text v eq_refl Hj) |] |];
        eexists; reflexivity. }
    destruct Hd as [d Hd].
    destruct (image_search_first_query_of_analysis w image_bytes n tr d Hd) as [rest Hrest].
    apply Hlast in Hrest. clear Hlast Hobject. cbv beta zeta in Hrest.
    unfold_run. step. revert Hd.
    destruct (gemini_vision w tr analysis_prompt image_bytes) as [text|];
      [ destruct (json_loads w (strip_fences w text)) as [v|] |];
      intros Hd; step; rewrite Hd;
      cbn [py_get py_get_default]; step;
      rewrite image_filters_where; step;
      revert Hrest;
      match goal with
      | |- context [if truthy ?wc then _ else _] => destruct (truthy wc)
      end;
      intros Hrest; step;
      destruct Hrest as [(results & products & Hq & Hp)
                        | ([? Hfail] & results & products & Hq & Hp)];
      [ rewrite Hq | rewrite Hfail; step; rewrite Hq
      | rewrite Hq | rewrite Hfail; step; rewrite Hq
      | rewrite Hq | rewrite Hfail; step; rewrite Hq
      | rewrite Hq | rewrite Hfail; step; rewrite Hq
      | rewrite Hq | rewrite Hfail; step; rewrite Hq
      | rewrite Hq | rewrite Hfail; step; rewrite Hq ]; step;
      change (match results with [] => [] | ids0 :: _ => ids0 end) with (hd [] results);
      rewrite Hp; step; eexists; split; reflexivity.
  - intros product_id tr [Hnone | (product & results & products & Hfound & Hq & Hp)];
      unfold_run; step.
    + rewrite Hnone. step. eexists; split; reflexivity.
    + rewrite Hfound. step. unfold condition. rewrite Hq. step.
      change (match results with [] => [] | ids0 :: _ => ids0 end) with (hd [] results).
      rewrite Hp. step. composed.
Qed.

Lemma text_search_survives_rejected_predicate :
  exists v,
    fst (text_search Examples.world_rejecting_predicates "formal shirts for men" 12 [])
      = Ok v /\
    valid_result v = true.
Proof.
  destruct (entry_points_absorb_failures Examples.world_rejecting_predicates)
    as (Htext & _ & _).
  apply (Htext "formal shirts for men" 12 [] Examples.men_shirts
           [EvGenerate (parse_prompt "formal shirts for men")]
           (condition "Gender" "$eq" (PStr "Men")) eq_refl eq_refl).
  intros text k where_ rest H.
  change (snd (text_search Examples.world_rejecting_predicates
                 "formal shirts for men" 12 []))
    with [ EvGenerate (parse_prompt "formal shirts for men");
           EvQuery (PStr "formal shirts") 12 (Some (condition "Gender" "$eq" (PStr "Men")));
           EvQuery (PStr "formal shirts") 12 None;
           EvGenerate (advice_prompt "formal shirts for men"
                         [Examples.shirt; Examples.jeans]) ] in H.
  injection H as <- <- <- _.
  right. split.
  - exists (ServiceError "bad where clause"). reflexivity.
  - exists Examples.ranking, [Examples.shirt; Examples.jeans]. split; reflexivity.
Defined.

(** C1, the claim as stated, fails: with the index unreachable
    [image_search] asks twice and then raises. *)
Lemma image_search_raises_when_index_is_down :
  image_search Examples.world_offline [Byte.xff; Byte.xd8] 12 []
  = (Raise (ServiceError "unavailable"),
     [ EvGenerateWithImage analysis_prompt [Byte.xff; Byte.xd8];
       EvQuery (PStr "fashion clothing") 12 None;
       EvQuery (PStr "fashion clothing") 12 None ]).
Proof. reflexivity. Qed.

(** ** The limit of a query *)

(** C2.  [image_search] hands the caller's limit to the index as it is:
    asked for 1000 results it requests 1000, where [text_search] would
    request 50. *)
Theorem image_search_requests_unclamped_limit :
  snd (image_search Examples.world_no_model [Byte.xff; Byte.xd8] 1000 [])
  = [ EvGenerateWithImage analysis_prompt [Byte.xff; Byte.xd8];
      EvQuery (PStr "fashion clothing") 1000 None ] /\
  In (EvQuery (PStr "jeans") 50 None)
     (snd (text_search Examples.world_no_model "jeans" 1000 [])).
Proof.
  split; [reflexivity |]. vm_compute. right; left; reflexivity.
Qed.

(** ** The queries of a text search *)

Lemma completions_are_no_queries (rest : trace) :
  forallb is_completion rest = true ->
  forall text k where_, ~ In (EvQuery text k where_) rest.
Proof.
  intros H text k where_ Hin.
  rewrite forallb_forall in H. apply H in Hin. discriminate.
Qed.

(** Every query of a text search carries the same text and the clamped
    limit. *)
Lemma text_search_queries (w : World) (query : string) (n : Z) (tr tr1 : trace)
    (filters phrase : pyval) :
  parse_query_with_gemini w query tr = (Ok filters, tr1) ->
  py_get filters "search_text" = Ok phrase ->
  exists rest,
    snd (text_search w query n tr) = tr1 ++ rest /\
    forall text k where_, In (EvQuery text k where_) rest ->
      text = py_or phrase (PStr query) /\ k = Z.min n 50.
Proof.
  intros Hparse Hphrase.
  unfold_run. rewrite Hparse. step. rewrite Hphrase. step.
  set (search_text := py_or phrase (PStr query)). set (limit := Z.min n 50).
  assert (Hone : forall where_ rest,
            forallb is_completion rest = true ->
            forall text k where', In (EvQuery text k where') (EvQuery search_text limit where_ :: rest) ->
              text = search_text /\ k = limit).
  { intros where_ rest Hrest text k where' [H | H].
    - injection H as <- <- _. split; reflexivity.
    - exfalso. eapply completions_are_no_queries; eauto. }
  assert (Htwo : forall where_ rest,
            forallb is_completion rest = true ->
            forall text k where', In (EvQuery text k where')
                (EvQuery search_text limit where_ :: EvQuery search_text limit None :: rest) ->
              text = search_text /\ k = limit).
  { intros where_ rest Hrest text k where' [H | H].
    - injection H as <- <- _. split; reflexivity.
    - eapply Hone; eauto. }
  destruct (build_chroma_where w filters) as [where_clause|]; step.
  2:{ exists []. rewrite app_nil_r. split; [reflexivity | intros ? ? ? []]. }
  destruct (truthy where_clause); step;
    match goal with
    | |- context [chroma_query _ tr1 _ _ ?wh] =>
        destruct (chroma_query w tr1 search_text limit wh) as [results|]; step
    end;
    try match goal with
    | |- context [chroma_query _ ?h _ _ None] =>
        destruct (chroma_query w h search_text limit None) as [results|]; step
    end;
    try (destruct results as [|[|pid ids] more]; step);
    try (destruct (get_products_by_ids w (pid :: ids)) as [products|]; step);
    try match goal with
    | |- context [generate_fashion_advice _ ?q ?ps ?t] =>
        destruct (generate_fashion_advice_ok w q ps t) as (advice & rest & -> & Hrest)
    end;
    cbn [snd]; rewrite <- ?app_assoc; cbn [app];
    (eexists; split; [reflexivity |]);
    first [ apply Hone; first [ assumption | reflexivity ]
          | apply Htwo; first [ assumption | reflexivity ] ].
Qed.

Lemma truthy_text_not_empty (v : pyval) :
  truthy v = true -> v <> PNone /\ v <> PStr EmptyString.
Proof.
  intros H. split; intros ->; discriminate.
Qed.

(** C10 (as amended).  Every query of a text search carries the
    extracted search phrase when that phrase is true in Python's sense
    (for a string: when it is not empty), and the raw query when it is
    not: when the phrase is null, the empty string, zero or false.  The
    text is then never null, and it is empty only when the raw query
    itself is empty. *)
Theorem text_search_query_text (w : World) (query : string) (n : Z) (tr tr1 : trace)
    (filters phrase : pyval) :
  parse_query_with_gemini w query tr = (Ok filters, tr1) ->
  py_get filters "search_text" = Ok phrase ->
  exists rest,
    snd (text_search w query n tr) = tr1 ++ rest /\
    forall text k where_, In (EvQuery text k where_) rest ->
      (truthy phrase = true -> text = phrase) /\
      (truthy phrase = false -> text = PStr query) /\
      (forall s, phrase = PStr s -> s <> EmptyString -> text = PStr s) /\
      (phrase = PNone \/ phrase = PStr EmptyString \/
       phrase = PInt 0 \/ phrase = PBool false -> text = PStr query) /\
      text <> PNone /\
      (query <> EmptyString -> text <> PStr EmptyString).
Proof.
  intros Hparse Hphrase.
  destruct (text_search_queries w query n tr tr1 filters phrase Hparse Hphrase)
    as (rest & Htrace & Hqueries).
  exists rest. split; [exact Htrace |].
  intros text k where_ Hin. destruct (Hqueries text k where_ Hin) as [-> _].
  unfold py_or. split; [| split; [| split; [| split; [| split]]]].
  - intros ->. reflexivity.
  - intros ->. reflexivity.
  - intros s -> Hs. simpl. destruct (String.eqb_spec s EmptyString); [contradiction |].
    reflexivity.
  - intros [-> | [-> | [-> | ->]]]; reflexivity.
  - destruct (truthy phrase) eqn:Ht; [| discriminate].
    apply truthy_text_not_empty. exact Ht.
  - intros Hq. destruct (truthy phrase) eqn:Ht.
    + apply truthy_text_not_empty. exact Ht.
    + intros H. injection H as H. contradiction.
Qed.

Lemma raw_query_used_when_model_is_down :
  exists rest,
    snd (text_search Examples.world_no_model "jeans" 12 [])
      = [EvGenerate (parse_prompt "jeans")] ++ rest /\
    forall text k where_, In (EvQuery text k where_) rest -> text = PStr "jeans".
Proof.
  destruct (text_search_query_text Examples.world_no_model "jeans" 12 []
              [EvGenerate (parse_prompt "jeans")] (fallback_filters "jeans") (PStr "jeans")
              eq_refl eq_refl) as (rest & Htrace & Hqueries).
  exists rest. split; [exact Htrace |].
  intros text k where_ Hin.
  destruct (Hqueries text k where_ Hin) as (Hphrase & _).
  apply Hphrase. reflexivity.
Defined.

(** C10, the claim as stated, fails: an empty raw query with no usable
    phrase is handed to the index as it is. *)
Lemma empty_query_reaches_index :
  fst (parse_query_with_gemini Examples.world_no_model EmptyString [])
    = Ok (fallback_filters EmptyString) /\
  In (EvQuery (PStr EmptyString) 12 None)
     (snd (text_search Examples.world_no_model EmptyString 12 [])).
Proof.
  split; [reflexivity |]. vm_compute. right; left; reflexivity.
Qed.

(** ** The order of the products *)

(** The last index query of a text search that returned, with the
    history it was asked at. *)
Ltac last_query Hq after ids :=
  match type of Hq with
  | chroma_query _ ((_ ++ [_]) ++ ?earlier) _ _ _ = Ok _ => exists earlier
  | chroma_query _ (_ ++ [_]) _ _ _ = Ok _ => exists (@nil event)
  end;
  match type of Hq with
  | chroma_query _ _ ?text ?k ?where_ = Ok ?results =>
      exists text, k, where_, after, results, ids
  end;
  cbv zeta; cbn [fst snd];
  rewrite <- ?app_assoc; cbn [app];
  rewrite <- ?app_assoc in Hq; cbn [app] in Hq;
  split; [reflexivity | split; [first [assumption | reflexivity] | split; [exact Hq | split]]].

(** C3 (as amended).  The products of a text search are the rows of the
    store whose identifier is in the match set, in the order the store
    keeps them: the ranking decides which rows come back, not where they
    stand.  The match set is the answer to the last index query the
    search made (the only one, or the retry). *)
Theorem text_search_products_in_store_order (w : World) (query : string) (n : Z)
    (tr : trace) (d : list (string * pyval)) :
  fst (text_search w query n tr) = Ok (PDict d) ->
  exists earlier text k where_ after results ids,
    let before := tr ++ EvGenerate (parse_prompt query) :: earlier in
    snd (text_search w query n tr) = before ++ EvQuery text k where_ :: after /\
    forallb is_completion after = true /\
    chroma_query w before text k where_ = Ok results /\
    mapR (int_of_str w) (hd [] results) = Ok ids /\
    assoc d "products"
    = Some (rows (filter (fun p => existsb (Z.eqb (ProductId p)) ids) (products_table w))).
Proof.
  unfold_run. rewrite parse_query_run. step.
  match goal with
  | |- context [py_get ?f "search_text"] => generalize f; intros filters
  end.
  destruct (py_get filters "search_text") as [phrase|]; step; [| discriminate].
  destruct (build_chroma_where w filters) as [where_clause|]; step; [| discriminate].
  set (search_text := py_or phrase (PStr query)). set (limit := Z.min n 50).
  assert (Hempty : rows (filter (fun p => existsb (Z.eqb (ProductId p)) [])
                           (products_table w)) = PList []).
  { change (rows (select_in w []) = PList []). rewrite select_in_nil. reflexivity. }
  destruct (truthy where_clause); step;
    match goal with
    | |- context [chroma_query w (tr ++ [?g]) search_text limit ?wh] =>
        destruct (chroma_query w (tr ++ [g]) search_text limit wh) as [results|] eqn:Hq; step
    end;
    try match goal with
    | |- context [chroma_query w ((tr ++ [?g]) ++ ?first) search_text limit None] =>
        clear Hq;
        destruct (chroma_query w ((tr ++ [g]) ++ first) search_text limit None)
          as [results|] eqn:Hq; step
    end;
    try discriminate;
    (destruct results as [|[|pid ids] more]; step;
     [ intros H; injection H as <-; last_query Hq (@nil event) (@nil Z);
       [ reflexivity | rewrite Hempty; reflexivity ]
     | intros H; injection H as <-; last_query Hq (@nil event) (@nil Z);
       [ reflexivity | rewrite Hempty; reflexivity ]
     | destruct (get_products_by_ids w (pid :: ids)) as [products|] eqn:Hp; step;
       [| discriminate];
       destruct (get_products_by_ids_select w _ _ Hp) as (zs & Hzs & ->);
       match goal with
       | |- context [generate_fashion_advice _ ?q ?ps ?t] =>
           destruct (generate_fashion_advice_ok w q ps t) as (advice & rest & -> & Hrest)
       end;
       intros H; injection H as <-; last_query Hq rest zs;
       [ exact Hzs | reflexivity ] ]).
Qed.

Lemma jeans_search_products_in_store_order :
  exists earlier text k where_ after results ids,
    let before := [] ++ EvGenerate (parse_prompt "jeans") :: earlier in
    snd (text_search Examples.world_no_model "jeans" 12 [])
    = before ++ EvQuery text k where_ :: after /\
    forallb is_completion after = true /\
    chroma_query Examples.world_no_model before text k where_ = Ok results /\
    mapR Examples.decimal_int (hd [] results) = Ok ids /\
    Some (rows [Examples.shirt; Examples.jeans])
    = Some (rows (filter (fun p => existsb (Z.eqb (ProductId p)) ids) Examples.table)).
Proof.
  exact (text_search_products_in_store_order Examples.world_no_model "jeans" 12 []
           [ ("products", rows [Examples.shirt; Examples.jeans]);
             ("advice", PStr (advice_fallback "jeans" [Examples.shirt; Examples.jeans]));
             ("filters", fallback_filters "jeans");
             ("search_text", PStr "jeans") ]
           eq_refl).
Defined.

(** C3, the claim as stated, fails: the index ranks the jeans (2) before
    the shirt (1); the result lists the shirt first, as the table does. *)
Lemma ranking_order_is_lost :
  let w := Examples.world_no_model in
  chroma_query w [EvGenerate (parse_prompt "jeans")] (PStr "jeans") 12 None
    = Ok [["2"; "1"]] /\
  (exists d, fst (text_search w "jeans" 12 []) = Ok (PDict d) /\
             assoc d "products" = Some (rows [Examples.shirt; Examples.jeans])) /\
  rows [Examples.shirt; Examples.jeans] <> rows [Examples.jeans; Examples.shirt].
Proof.
  cbv zeta. split; [reflexivity | split].
  - eexists. split; reflexivity.
  - discriminate.
Qed.

(** ** The complementary products *)

Section Complements.

Variable w : World.

Lemma mapR_In {A B : Type} (f : A -> Result B) (l : list A) (l' : list B) (b : B) :
  mapR f l = Ok l' -> In b l' -> exists a, In a l /\ f a = Ok b.
Proof.
  intros H. apply mapR_Forall2 in H.
  induction H as [|a b' l l' Hab _ IH]; intros Hin; [contradiction |].
  destruct Hin as [<- | Hin].
  - exists a. split; [left; reflexivity | exact Hab].
  - destruct (IH Hin) as (a' & Ha' & Hf). exists a'. split; [right; exact Ha' | exact Hf].
Qed.





End Complements.




(** ** Further facts about the index queries *)

(** X1.  The limit of every query of a text search is the caller's
    limit clamped to 50. *)
Theorem text_search_limit_clamped (w : World) (query : string) (n : Z) (tr : trace) :
  exists rest,
    snd (text_search w query n tr) = tr ++ rest /\
    forall text k where_, In (EvQuery text k where_) rest -> k = Z.min n 50 /\ k <= 50.
Proof.
  pose proof (parse_query_run w query tr) as Hparse.
  set (filters := match gemini_text w tr (parse_prompt query) with
                  | Ok text => _
                  | Raise _ => _
                  end) in Hparse.
  destruct (py_get filters "search_text") as [phrase|] eqn:Hphrase.
  - destruct (text_search_queries w query n tr _ filters phrase Hparse Hphrase)
      as (rest & -> & Hqueries).
    exists (EvGenerate (parse_prompt query) :: rest).
    rewrite <- app_assoc. split; [reflexivity |].
    intros text k where_ [H | H]; [discriminate |].
    destruct (Hqueries text k where_ H) as [_ ->]. split; [reflexivity | lia].
  - exists [EvGenerate (parse_prompt query)].
    unfold_run. rewrite Hparse. step. rewrite Hphrase.
    split; [reflexivity |]. intros text k where_ [H | []]. discriminate.
Qed.

(** X2.  The recommender has no handler around its query: when the
    index raises, so does [get_outfit_recommendations]. *)
Theorem outfit_query_failure_reaches_caller (w : World) (product_id : Z) (tr : trace)
    (product : product) (e : exn) :
  get_product_by_id w product_id = Ok (Some product) ->
  chroma_query w tr (PStr (complement_query product)) 6
    (Some (condition "Gender" "$eq" (PStr (Gender product)))) = Raise e ->
  get_outfit_recommendations w product_id tr
  = (Raise e,
     tr ++ [EvQuery (PStr (complement_query product)) 6
              (Some (condition "Gender" "$eq" (PStr (Gender product))))]).
Proof.
  intros Hfound Hfail. unfold_run. step. rewrite Hfound. step. rewrite Hfail. reflexivity.
Qed.

Lemma shirt_outfit_raises_when_index_is_down :
  fst (get_outfit_recommendations Examples.world_index_down 1 [])
  = Raise (ServiceError "unavailable").
Proof.
  rewrite (outfit_query_failure_reaches_caller Examples.world_index_down 1 []
             Examples.shirt (ServiceError "unavailable") eq_refl eq_refl).
  reflexivity.
Defined.

(** * Further properties of the code *)

(** ** The store *)

Section Store.

Variable w : World.

Lemma select_in_ext (ids ids' : list Z) :
  (forall z, In z ids <-> In z ids') -> select_in w ids = select_in w ids'.
Proof.
  intros H. unfold select_in. apply filter_ext. intros p.
  destruct (existsb (Z.eqb (ProductId p)) ids) eqn:E;
    destruct (existsb (Z.eqb (ProductId p)) ids') eqn:E'; try reflexivity.
  - apply existsb_exists in E. destruct E as (z & Hz & Heq).
    assert (existsb (Z.eqb (ProductId p)) ids' = true)
      by (apply existsb_exists; exists z; split; [apply H; exact Hz | exact Heq]).
    congruence.
  - apply existsb_exists in E'. destruct E' as (z & Hz & Heq).
    assert (existsb (Z.eqb (ProductId p)) ids = true)
      by (apply existsb_exists; exists z; split; [apply H; exact Hz | exact Heq]).
    congruence.
Qed.

Lemma mapR_In_image {A B : Type} (f : A -> Result B) (l : list A) (l' : list B) (a : A) :
  mapR f l = Ok l' -> In a l -> exists b, f a = Ok b /\ In b l'.
Proof.
  intros H. apply mapR_Forall2 in H.
  induction H as [|a' b' l l' Hab _ IH]; intros Hin; [contradiction |].
  destruct Hin as [<- | Hin].
  - exists b'. split; [exact Hab | left; reflexivity].
  - destruct (IH Hin) as (b & Hb & Hin'). exists b. split; [exact Hb | right; exact Hin'].
Qed.

End Store.

(** X3.  Given identifiers that [int] converts to integers of 64 bits,
    a lookup raises nothing and returns exactly the rows of the table
    whose identifier one of the given strings denotes: identifiers the
    store does not know are skipped, and no row comes back that was not
    asked for. *)
Theorem get_products_by_ids_membership (w : World) (product_ids : list string) :
  (forall pid, In pid product_ids ->
     exists z, int_of_str w pid = Ok z /\ in_int64 z = true) ->
  exists products,
    get_products_by_ids w product_ids = Ok products /\
    forall p, In p products <->
              In p (products_table w) /\
              exists pid, In pid product_ids /\ int_of_str w pid = Ok (ProductId p).
Proof.
  intros Hids. destruct (get_products_by_ids_total w product_ids Hids) as [products H].
  exists products. split; [exact H |]. intros p.
  destruct (get_products_by_ids_select w _ _ H) as (ids & Hmap & ->).
  unfold select_in. rewrite filter_In, existsb_exists. split.
  - intros [Hin (z & Hz & Heq)]. apply Z.eqb_eq in Heq. subst z.
    split; [exact Hin |]. apply (mapR_In _ _ _ _ Hmap Hz).
  - intros [Hin (pid & Hpid & Hint)]. split; [exact Hin |].
    destruct (mapR_In_image _ _ _ _ Hmap Hpid) as (z & Hz & Hzin).
    rewrite Hint in Hz. injection Hz as <-.
    exists (ProductId p). split; [exact Hzin | apply Z.eqb_refl].
Qed.

Lemma lookup_skips_unknown_identifier :
  exists products,
    get_products_by_ids Examples.world_no_model ["2"; "77"] = Ok products /\
    forall p, In p products <->
              In p Examples.table /\
              exists pid, In pid ["2"; "77"] /\ Examples.decimal_int pid = Ok (ProductId p).
Proof.
  apply (get_products_by_ids_membership Examples.world_no_model ["2"; "77"]).
  intros pid [<- | [<- | []]]; eexists; split; reflexivity.
Defined.

(** X4.  The result of a lookup by identifiers depends on which
    identifiers are given, not on their order or on repetitions: two
    lists with the same members give the same rows in the same order. *)
Theorem get_products_by_ids_order_independent (w : World)
    (product_ids product_ids' : list string) (products : list product) :
  (forall pid, In pid product_ids <-> In pid product_ids') ->
  get_products_by_ids w product_ids = Ok products ->
  get_products_by_ids w product_ids' = Ok products.
Proof.
  intros Hsame H.
  destruct (get_products_by_ids_inv w _ _ H) as (ids & Hids & Hrange & ->).
  destruct (mapR_total (int_of_str w) product_ids') as [ids' Hids'].
  { intros pid Hpid. apply Hsame in Hpid.
    destruct (mapR_In_image _ _ _ _ Hids Hpid) as (z & Hz & _). eauto. }
  assert (Hmembers : forall z, In z ids <-> In z ids').
  { intros z. split; intros Hz.
    - destruct (mapR_In _ _ _ _ Hids Hz) as (pid & Hpid & Hint).
      apply Hsame in Hpid.
      destruct (mapR_In_image _ _ _ _ Hids' Hpid) as (z' & Hz' & Hin).
      rewrite Hint in Hz'. injection Hz' as <-. exact Hin.
    - destruct (mapR_In _ _ _ _ Hids' Hz) as (pid & Hpid & Hint).
      apply Hsame in Hpid.
      destruct (mapR_In_image _ _ _ _ Hids Hpid) as (z' & Hz' & Hin).
      rewrite Hint in Hz'. injection Hz' as <-. exact Hin. }
  assert (Hrange' : forallb in_int64 ids' = true).
  { apply forallb_forall. intros z Hz. apply Hmembers in Hz.
    rewrite forallb_forall in Hrange. apply Hrange. exact Hz. }
  rewrite (get_products_by_ids_of_ids w _ _ Hids' Hrange').
  f_equal. symmetry. apply select_in_ext. exact Hmembers.
Qed.

Lemma ranked_and_reversed_lookup_agree :
  get_products_by_ids Examples.world_no_model ["1"; "2"; "2"]
  = Ok [Examples.shirt; Examples.jeans].
Proof.
  apply (get_products_by_ids_order_independent Examples.world_no_model ["2"; "1"]).
  - intros pid. simpl. tauto.
  - reflexivity.
Defined.

(** X5.  One identifier that [int] rejects makes the whole lookup
    raise that error: the rows of the identifiers before it are not
    returned. *)
Theorem get_products_by_ids_bad_identifier (w : World) (good : list string)
    (bad : string) (rest : list string) (e : exn) :
  (forall pid, In pid good -> exists z, int_of_str w pid = Ok z) ->
  int_of_str w bad = Raise e ->
  get_products_by_ids w (good ++ bad :: rest) = Raise e.
Proof.
  intros Hgood Hbad.
  assert (Hmap : mapR (int_of_str w) (good ++ bad :: rest) = Raise e).
  { induction good as [|pid good IH]; simpl.
    - rewrite Hbad. reflexivity.
    - destruct (Hgood pid (or_introl eq_refl)) as [z ->]. simpl.
      rewrite IH; [reflexivity |]. intros x Hx. apply Hgood. right; exact Hx. }
  unfold get_products_by_ids. rewrite Hmap.
  destruct good; reflexivity.
Qed.

Lemma lookup_with_word_identifier_raises :
  get_products_by_ids Examples.world_no_model (["2"] ++ "two" :: []) = Raise ValueError.
Proof.
  apply (get_products_by_ids_bad_identifier Examples.world_no_model ["2"] "two" [] ValueError).
  - intros pid [<- | []]. eexists; reflexivity.
  - reflexivity.
Defined.

(** X26.  One identifier that [int] converts to an integer beyond 64
    bits makes the whole lookup raise [OverflowError], whatever the other
    identifiers are, as long as [int] accepts them all. *)
Theorem get_products_by_ids_overflow (w : World) (product_ids : list string)
    (ids : list Z) (z : Z) :
  mapR (int_of_str w) product_ids = Ok ids ->
  In z ids ->
  in_int64 z = false ->
  get_products_by_ids w product_ids = Raise OverflowError.
Proof.
  intros Hids Hz Hrange. unfold get_products_by_ids.
  destruct product_ids as [|pid rest].
  - simpl in Hids. injection Hids as <-. contradiction.
  - rewrite Hids. cbn [bindR].
    destruct (forallb in_int64 ids) eqn:Hall; [| reflexivity].
    rewrite forallb_forall in Hall. rewrite (Hall z Hz) in Hrange. discriminate.
Qed.

Lemma lookup_beyond_64_bits_raises :
  get_products_by_ids Examples.world_no_model ["2"; "9223372036854775808"]
  = Raise OverflowError.
Proof.
  apply (get_products_by_ids_overflow Examples.world_no_model
           ["2"; "9223372036854775808"] [2; 9223372036854775808] 9223372036854775808).
  - reflexivity.
  - right; left; reflexivity.
  - reflexivity.
Defined.

(** X6.  A lookup by one identifier returns the first row of the table
    that carries it, and agrees with the lookup by a list: when [int]
    reads the identifier's decimal form back, that row heads the rows
    the list lookup returns for it, and these all carry the identifier. *)
Theorem get_product_by_id_first_match (w : World) (product_id : Z) (p : product) :
  get_product_by_id w product_id = Ok (Some p) ->
  ProductId p = product_id /\
  In p (products_table w) /\
  (int_of_str w (str_of_int product_id) = Ok product_id ->
   exists others,
     get_products_by_ids w [str_of_int product_id] = Ok (p :: others) /\
     forall q, In q others -> ProductId q = product_id).
Proof.
  intros Hfound. destruct (get_product_by_id_found w _ _ Hfound) as [Hrange Hfind].
  pose proof (find_some _ _ Hfind) as [Hin Heq]. apply Z.eqb_eq in Heq.
  split; [exact Heq | split; [exact Hin |]].
  intros Hint.
  rewrite (get_products_by_ids_of_ids w [str_of_int product_id] [product_id]);
    [| simpl; rewrite Hint; reflexivity | simpl; rewrite Hrange; reflexivity ].
  unfold select_in.
  rewrite (filter_ext _ (fun r => ProductId r =? product_id)%Z)
    by (intros r; simpl; apply orb_false_r).
  clear Hin Heq Hfound.
  induction (products_table w) as [|r table IH]; [discriminate |].
  simpl in Hfind |- *.
  destruct (ProductId r =? product_id)%Z eqn:Hr.
  - injection Hfind as ->.
    eexists. split; [reflexivity |].
    intros q Hq. apply filter_In in Hq. destruct Hq as [_ Hq].
    apply Z.eqb_eq in Hq. exact Hq.
  - apply IH. exact Hfind.
Qed.

Lemma jeans_found_by_both_lookups :
  exists others,
    get_products_by_ids Examples.world_no_model ["2"] = Ok (Examples.jeans :: others) /\
    forall q, In q others -> ProductId q = 2.
Proof.
  destruct (get_product_by_id_first_match Examples.world_no_model 2 Examples.jeans eq_refl)
    as (_ & _ & Hlist).
  apply Hlist. reflexivity.
Defined.

(** X7.  The listing returns a prefix of the table: every row when no
    limit or the limit 0 is given (0 counts as no limit, not as no rows)
    or the limit is negative, and the first [limit] rows, or all of them
    if there are fewer, for a positive limit.  That is so for a limit
    that fits 64 bits; any other makes the listing raise. *)
Theorem get_all_products_limit (w : World) (limit : option Z) :
  (forall products, get_all_products w limit = Ok products ->
     exists n, products = firstn n (products_table w)) /\
  (limit = None \/ limit = Some 0 -> get_all_products w limit = Ok (products_table w)) /\
  (forall n, limit = Some n -> 0 < n <= 9223372036854775807 ->
     get_all_products w limit = Ok (firstn (Z.to_nat n) (products_table w)) /\
     Z.of_nat (length (firstn (Z.to_nat n) (products_table w)))
     = Z.min n (Z.of_nat (length (products_table w)))) /\
  (forall n, limit = Some n -> -9223372036854775808 <= n < 0 ->
     get_all_products w limit = Ok (products_table w)) /\
  (forall n, limit = Some n -> n < -9223372036854775808 \/ 9223372036854775807 < n ->
     get_all_products w limit = Raise (DatabaseError "datatype mismatch")).
Proof.
  assert (Hall : exists n, products_table w = firstn n (products_table w))
    by (exists (length (products_table w)); symmetry; apply firstn_all).
  assert (Hin : forall n, -9223372036854775808 <= n <= 9223372036854775807 ->
                          in_int64 n = true).
  { intros n Hn. unfold in_int64. apply andb_true_intro. split; apply Z.leb_le; lia. }
  assert (Hout : forall n, n < -9223372036854775808 \/ 9223372036854775807 < n ->
                           in_int64 n = false).
  { intros n Hn. unfold in_int64. apply andb_false_iff.
    destruct Hn; [left | right]; apply Z.leb_gt; lia. }
  split; [| split; [| split; [| split]]].
  - intros products. destruct limit as [n|]; cbn [get_all_products truthy].
    + destruct (n =? 0)%Z; cbn [negb].
      * intros H. injection H as <-. exact Hall.
      * destruct (in_int64 n); [| discriminate].
        destruct (n <? 0)%Z; intros H; injection H as <-; [exact Hall |].
        eexists; reflexivity.
    + intros H. injection H as <-. exact Hall.
  - intros [-> | ->]; reflexivity.
  - intros n -> Hn. cbn [get_all_products truthy].
    destruct (Z.eqb_spec n 0); [lia |]. cbn [negb].
    rewrite Hin by lia.
    destruct (Z.ltb_spec n 0); [lia |].
    split; [reflexivity |]. rewrite length_firstn. lia.
  - intros n -> Hn. cbn [get_all_products truthy].
    destruct (Z.eqb_spec n 0); [lia |]. cbn [negb].
    rewrite Hin by lia.
    destruct (Z.ltb_spec n 0); [reflexivity | lia].
  - intros n -> Hn. cbn [get_all_products truthy].
    destruct (Z.eqb_spec n 0); [lia |]. cbn [negb].
    rewrite (Hout n Hn). reflexivity.
Qed.

(** ** The simulated prices *)

Lemma price_range_bounds (product_type : string) :
  let (low, high) := price_range PRICE_MAP product_type in
  199 <= low /\ low <= high /\ high <= 5999.
Proof.
  unfold PRICE_MAP. simpl.
  repeat match goal with
         | |- context [if ?b then _ else _] => destruct b; [lia |]
         end.
  unfold DEFAULT_PRICE_RANGE. lia.
Qed.

(** X8.  Whatever the product type and the draw, a generated price is a
    positive multiple of 100 between 100 and 5900, and lies between the
    type's two bounds rounded down to hundreds, so it may undercut the
    nominal lower bound. *)
Theorem generate_price_bounds (randint : Z -> Z -> Z) (product_type : string) :
  (forall a b, a <= b -> a <= randint a b <= b) ->
  let price := generate_price randint product_type in
  let (low, high) := price_range PRICE_MAP product_type in
  (100 | price) /\
  100 <= price <= 5900 /\
  low / 100 * 100 <= price <= high / 100 * 100.
Proof.
  intros Hdraw. unfold generate_price.
  pose proof (price_range_bounds product_type) as Hrange.
  destruct (price_range PRICE_MAP product_type) as [low high].
  destruct Hrange as (Hlow & Horder & Hhigh). cbv zeta.
  assert (Hdiv : low / 100 <= high / 100) by (apply Z.div_le_mono; lia).
  specialize (Hdraw _ _ Hdiv).
  assert (1 <= low / 100) by (apply Z.div_le_lower_bound; lia).
  assert (high / 100 < 60) by (apply Z.div_lt_upper_bound; lia).
  generalize dependent (randint (low / 100) (high / 100)).
  generalize dependent (low / 100). generalize dependent (high / 100).
  intros h Hh l Hlh Hl r Hr.
  split; [apply Z.divide_factor_r | lia].
Qed.

Lemma cheapest_shirt_undercuts_lower_bound :
  (100 | 500) /\ 100 <= 500 <= 5900 /\ 599 / 100 * 100 <= 500 <= 2499 / 100 * 100.
Proof.
  apply (generate_price_bounds Scenes.lowest "Shirts").
  intros a b Hab. unfold Scenes.lowest. lia.
Defined.

(** ** The image search *)

(** After the analysis: the index is asked, the products are fetched. *)
Ltac image_queries w :=
  cbn [py_get py_get_default]; step;
  rewrite image_filters_where; step;
  match goal with
  | |- context [if truthy ?wc then _ else _] => destruct (truthy wc); step
  end;
  match goal with
  | |- context [chroma_query w ?h ?text ?n ?wh] =>
      destruct (chroma_query w h text n wh); step;
      try match goal with
          | |- context [chroma_query w ?h' text n None] =>
              destruct (chroma_query w h' text n None); step
          end
  end;
  try match goal with
      | |- context [get_products_by_ids w ?l] =>
          destruct (get_products_by_ids w l); step
      end.

(** The requests of an image search. *)
Lemma image_search_trace (w : World) (image_bytes : list Byte.byte) (n : Z)
    (tr : trace) :
  exists rest,
    snd (image_search w image_bytes n tr)
    = tr ++ EvGenerateWithImage analysis_prompt image_bytes :: rest /\
    (length rest <= 2)%nat /\
    forall ev, In ev rest -> exists text where_, ev = EvQuery text n where_.
Proof.
  unfold_run. step.
  destruct (gemini_vision w tr analysis_prompt image_bytes) as [text|]; step;
    [ destruct (json_loads w (strip_fences w text)) as [[| | | | | |d]|]; step;
      [ .. | unfold fallback_analysis ]
    | unfold fallback_analysis ];
    try image_queries w;
    cbn [snd py_get_default]; rewrite <- ?app_assoc; cbn [app];
    (eexists; split; [reflexivity |]);
    (split; [simpl; lia |]);
    intros ev Hev; simpl in Hev;
    repeat (destruct Hev as [<- | Hev]; [eexists; eexists; reflexivity |]);
    contradiction.
Qed.

(** X9.  An image search makes one vision request, then at most two
    index queries, each with the caller's limit as it is, and no other
    request: its advice is a template, not a completion. *)
Theorem image_search_requests (w : World) (image_bytes : list Byte.byte) (n : Z)
    (tr : trace) :
  exists rest,
    snd (image_search w image_bytes n tr)
    = tr ++ EvGenerateWithImage analysis_prompt image_bytes :: rest /\
    (length rest <= 2)%nat /\
    forall ev, In ev rest -> exists text where_, ev = EvQuery text n where_.
Proof. exact (image_search_trace w image_bytes n tr). Qed.

(** X10.  The search text of an image search is the analysis's
    [search_query] whenever that key is present, be the value null or
    empty, else its [description], else the word [fashion]; the first
    index query carries it. *)
Theorem image_search_text_selection (w : World) (image_bytes : list Byte.byte) (n : Z)
    (tr : trace) (text : string) (d : list (string * pyval)) :
  gemini_vision w tr analysis_prompt image_bytes = Ok text ->
  json_loads w (strip_fences w text) = Ok (PDict d) ->
  exists search_text where_ rest,
    snd (image_search w image_bytes n tr)
    = tr ++ [ EvGenerateWithImage analysis_prompt image_bytes;
              EvQuery search_text n where_ ] ++ rest /\
    (forall v, assoc d "search_query" = Some v -> search_text = v) /\
    (forall v, assoc d "search_query" = None -> assoc d "description" = Some v ->
               search_text = v) /\
    (assoc d "search_query" = None -> assoc d "description" = None ->
     search_text = PStr "fashion").
Proof.
  intros Hvision Hjson.
  destruct (image_search_first_query w image_bytes n tr text d Hvision Hjson)
    as [rest Htrace].
  eexists; eexists; exists rest. split; [exact Htrace |].
  split; [| split].
  - intros v ->. reflexivity.
  - intros v -> ->. reflexivity.
  - intros -> ->. reflexivity.
Qed.

Lemma hoodie_search_text_is_null :
  exists search_text where_ rest,
    snd (image_search Scenes.world_hoodie [Byte.xff; Byte.xd8] 12 [])
    = [] ++ [ EvGenerateWithImage analysis_prompt [Byte.xff; Byte.xd8];
              EvQuery search_text 12 where_ ] ++ rest /\
    search_text = PNone.
Proof.
  destruct (image_search_text_selection Scenes.world_hoodie [Byte.xff; Byte.xd8] 12 []
              Scenes.hoodie_json _ eq_refl eq_refl)
    as (search_text & where_ & rest & Htrace & Hpresent & _).
  exists search_text, where_, rest. split; [exact Htrace |].
  apply Hpresent. reflexivity.
Defined.

(** X11.  An image search drops the gender [Unisex] (and a null
    gender) from its predicate: the first query filters on the color
    alone, or on nothing when the color is null or empty.  The Filter
    Compiler itself keeps such a gender, so a text search would filter
    on it. *)
Theorem image_search_drops_unisex (w : World) (image_bytes : list Byte.byte) (n : Z)
    (tr : trace) (text : string) (d : list (string * pyval)) :
  gemini_vision w tr analysis_prompt image_bytes = Ok text ->
  json_loads w (strip_fences w text) = Ok (PDict d) ->
  assoc d "gender" = Some (PStr "Unisex") \/ assoc d "gender" = Some PNone \/
  assoc d "gender" = None ->
  let color := match assoc d "color" with Some c => c | None => PNone end in
  (exists search_text rest,
     snd (image_search w image_bytes n tr)
     = tr ++ [ EvGenerateWithImage analysis_prompt image_bytes;
               EvQuery search_text n
                 (if truthy color then Some (condition "Colour" "$eq" color) else None) ]
          ++ rest) /\
  build_chroma_where w (PDict [ ("gender", PStr "Unisex") ])
  = Ok (condition "Gender" "$eq" (PStr "Unisex")).
Proof.
  intros Hvision Hjson Hgender color. split; [| reflexivity].
  destruct (image_search_first_query w image_bytes n tr text d Hvision Hjson)
    as [rest Htrace].
  eexists; exists rest. rewrite Htrace. fold color.
  assert (Hdropped : (if not_unisex_or_none
                           match assoc d "gender" with Some x => x | None => PNone end
                      then match assoc d "gender" with Some x => x | None => PNone end
                      else PNone) = PNone)
    by (destruct Hgender as [-> | [-> | ->]]; reflexivity).
  rewrite Hdropped. cbn [truthy app].
  destruct (truthy color) eqn:Hcolor; cbn [combine_conditions truthy condition];
    reflexivity.
Qed.

Lemma hoodie_search_filters_on_color_only :
  exists search_text rest,
    snd (image_search Scenes.world_hoodie [Byte.xff; Byte.xd8] 12 [])
    = [] ++ [ EvGenerateWithImage analysis_prompt [Byte.xff; Byte.xd8];
              EvQuery search_text 12 (Some (condition "Colour" "$eq" (PStr "Grey"))) ]
         ++ rest.
Proof.
  destruct (image_search_drops_unisex Scenes.world_hoodie [Byte.xff; Byte.xd8] 12 []
              Scenes.hoodie_json _ eq_refl eq_refl (or_introl eq_refl))
    as [Hquery _].
  exact Hquery.
Defined.

(** X12.  When the vision call raises, or answers a text that
    [json.loads] rejects, an image search goes on with the fixed
    analysis: it asks the index for [fashion clothing] with no predicate
    and, when the index answers with identifiers the store can look up,
    returns their rows, the fixed analysis and the template advice about
    a [clothing item]. *)
Theorem image_search_vision_fallback (w : World) (image_bytes : list Byte.byte) (n : Z)
    (tr : trace) (results : list (list string)) (products : list product) :
  (exists e, gemini_vision w tr analysis_prompt image_bytes = Raise e) \/
  (exists text e, gemini_vision w tr analysis_prompt image_bytes = Ok text /\
                  json_loads w (strip_fences w text) = Raise e) ->
  let tr1 := tr ++ [EvGenerateWithImage analysis_prompt image_bytes] in
  chroma_query w tr1 (PStr "fashion clothing") n None = Ok results ->
  get_products_by_ids w (hd [] results) = Ok products ->
  image_search w image_bytes n tr
  = (Ok (PDict [ ("products", rows products);
                 ("advice", PStr (image_advice "clothing item"));
                 ("analysis", fallback_analysis);
                 ("search_text", PStr "fashion clothing") ]),
     tr1 ++ [EvQuery (PStr "fashion clothing") n None]).
Proof.
  intros Hvision tr1 Hquery Hproducts.
  unfold_run. step. fold tr1.
  destruct Hvision as [[e He] | (text & e & Htext & He)];
    [ rewrite He | rewrite Htext; step; rewrite He ];
    step; unfold fallback_analysis at 1 2 3 4 5 6;
    cbn [py_get py_get_default assoc String.eqb Ascii.eqb Bool.eqb]; step;
    rewrite image_filters_where;
    cbn [truthy not_unisex_or_none app combine_conditions]; step;
    rewrite Hquery; step;
    change (match results with [] => [] | ids0 :: _ => ids0 end) with (hd [] results);
    rewrite Hproducts; reflexivity.
Qed.

Lemma image_search_without_vision :
  image_search Examples.world_no_model [Byte.xff; Byte.xd8] 12 []
  = (Ok (PDict [ ("products", rows [Examples.shirt; Examples.jeans]);
                 ("advice", PStr (image_advice "clothing item"));
                 ("analysis", fallback_analysis);
                 ("search_text", PStr "fashion clothing") ]),
     [ EvGenerateWithImage analysis_prompt [Byte.xff; Byte.xd8];
       EvQuery (PStr "fashion clothing") 12 None ]).
Proof.
  apply (image_search_vision_fallback Examples.world_no_model [Byte.xff; Byte.xd8] 12 []
           Examples.ranking [Examples.shirt; Examples.jeans]).
  - left. exists (ServiceError "unavailable"). reflexivity.
  - reflexivity.
  - reflexivity.
Defined.

(** ** The text search *)

(** X13.  When the index answers a text search with no identifier, the
    result is the dict of three entries (no products, the fixed
    [No products found] advice, the extracted filters; no [search_text]
    entry) and nothing is asked after the query: the Result Composer is
    not run. *)
Theorem text_search_empty_match_set (w : World) (query : string) (n : Z) (tr tr1 : trace)
    (filters phrase where_clause : pyval) (results : list (list string)) :
  parse_query_with_gemini w query tr = (Ok filters, tr1) ->
  py_get filters "search_text" = Ok phrase ->
  build_chroma_where w filters = Ok where_clause ->
  let search_text := py_or phrase (PStr query) in
  let where_ := if truthy where_clause then Some where_clause else None in
  chroma_query w tr1 search_text (Z.min n 50) where_ = Ok results ->
  hd [] results = [] ->
  text_search w query n tr
  = (Ok (PDict [ ("products", PList []);
                 ("advice", PStr "No products found matching your query.");
                 ("filters", filters) ]),
     tr1 ++ [EvQuery search_text (Z.min n 50) where_]).
Proof.
  intros Hparse Hphrase Hbuild search_text where_ Hquery Hempty.
  unfold_run. rewrite Hparse. step. rewrite Hphrase. step. rewrite Hbuild. step.
  fold search_text. unfold where_ in Hquery |- *.
  destruct (truthy where_clause); rewrite Hquery; step;
    destruct results as [|[|pid ids] more]; try discriminate; reflexivity.
Qed.

Lemma search_with_no_match :
  text_search Scenes.world_no_match "jeans" 12 []
  = (Ok (PDict [ ("products", PList []);
                 ("advice", PStr "No products found matching your query.");
                 ("filters", fallback_filters "jeans") ]),
     [EvGenerate (parse_prompt "jeans")] ++ [EvQuery (PStr "jeans") 12 None]).
Proof.
  exact (text_search_empty_match_set Scenes.world_no_match "jeans" 12 []
           [EvGenerate (parse_prompt "jeans")] (fallback_filters "jeans") (PStr "jeans")
           (PDict []) [[]] eq_refl eq_refl eq_refl eq_refl eq_refl).
Defined.

(** X14.  When the advice completion of a text search fails, the advice
    is the template, and the number of items it names is the number of
    products handed to the composer, which is at most four, however many
    products the result lists. *)
Theorem text_search_fallback_advice_count (w : World) (query : string) (n : Z)
    (tr tr1 : trace) (filters phrase where_clause : pyval)
    (results : list (list string)) (products : list product) (e : exn) :
  parse_query_with_gemini w query tr = (Ok filters, tr1) ->
  py_get filters "search_text" = Ok phrase ->
  build_chroma_where w filters = Ok where_clause ->
  let search_text := py_or phrase (PStr query) in
  let where_ := if truthy where_clause then Some where_clause else None in
  let tr2 := tr1 ++ [EvQuery search_text (Z.min n 50) where_] in
  chroma_query w tr1 search_text (Z.min n 50) where_ = Ok results ->
  get_products_by_ids w (hd [] results) = Ok products ->
  products <> [] ->
  gemini_text w tr2 (advice_prompt query (firstn 4 products)) = Raise e ->
  fst (text_search w query n tr)
  = Ok (PDict [ ("products", rows products);
                ("advice",
                 PStr (fstr [ "Great picks! Here are ";
                              str_of_int (Z.of_nat (Nat.min 4 (length products)));
                              " items that match '"; query;
                              "'. These selections are curated based on your preferences." ]));
                ("filters", filters);
                ("search_text", search_text) ]).
Proof.
  intros Hparse Hphrase Hbuild search_text where_ tr2 Hquery Hproducts Hsome Hadvice.
  unfold_run. rewrite Hparse. step. rewrite Hphrase. step. rewrite Hbuild. step.
  fold search_text. unfold tr2, where_ in *.
  destruct (truthy where_clause); rewrite Hquery; step.
  all: destruct results as [|[|pid ids] more];
    [ simpl in Hproducts; injection Hproducts as <-; contradiction
    | simpl in Hproducts; injection Hproducts as <-; contradiction
    | ].
  all: cbn [hd] in Hproducts; rewrite Hproducts; step.
  all: unfold generate_fashion_advice, try_except, _generate, ret.
  all: destruct products as [|p ps]; [contradiction |].
  all: change (firstn 4 (p :: ps)) with (p :: firstn 3 ps) in *.
  all: step; rewrite Hadvice; cbn [fst]; unfold advice_fallback.
  all: change (p :: firstn 3 ps) with (firstn 4 (p :: ps)).
  all: rewrite length_firstn; reflexivity.
Qed.

Lemma jeans_search_fallback_advice :
  fst (text_search Examples.world_no_model "jeans" 12 [])
  = Ok (PDict [ ("products", rows [Examples.shirt; Examples.jeans]);
                ("advice",
                 PStr "Great picks! Here are 2 items that match 'jeans'. These selections are curated based on your preferences.");
                ("filters", fallback_filters "jeans");
                ("search_text", PStr "jeans") ]).
Proof.
  apply (text_search_fallback_advice_count Examples.world_no_model "jeans" 12 []
           [EvGenerate (parse_prompt "jeans")] (fallback_filters "jeans") (PStr "jeans")
           (PDict []) Examples.ranking [Examples.shirt; Examples.jeans]
           (ServiceError "unavailable")); try reflexivity.
  discriminate.
Defined.

(** X15.  What the model answers is not checked for its shape: when it
    parses as JSON that is no object, or as an object whose price bound
    [int] rejects, the text search raises that error right after the
    extraction, without asking the index. *)
Theorem text_search_malformed_filters (w : World) (query : string) (n : Z)
    (tr tr1 : trace) (filters : pyval) (e : exn) :
  parse_query_with_gemini w query tr = (Ok filters, tr1) ->
  py_get filters "search_text" = Raise e \/
  (exists phrase, py_get filters "search_text" = Ok phrase /\
                  build_chroma_where w filters = Raise e) ->
  text_search w query n tr = (Raise e, tr1) /\
  ((forall d, filters <> PDict d) -> e = AttributeError).
Proof.
  intros Hparse Hbad. split.
  - unfold_run. rewrite Hparse. step.
    destruct Hbad as [-> | (phrase & -> & Hbuild)]; [reflexivity |].
    step. rewrite Hbuild. reflexivity.
  - intros Hshape.
    destruct filters; try (exfalso; eapply Hshape; reflexivity);
      destruct Hbad as [H | (phrase & H & _)]; simpl in H; congruence.
Qed.

Lemma search_on_array_answer_raises :
  text_search Scenes.world_array "jeans" 12 []
  = (Raise AttributeError, [EvGenerate (parse_prompt "jeans")]).
Proof.
  apply (text_search_malformed_filters Scenes.world_array "jeans" 12 []
           [EvGenerate (parse_prompt "jeans")] (PList []) AttributeError eq_refl).
  left. reflexivity.
Defined.

(** The queries and the advice request of a text search are as the
    goal describes them; [Hquery] and [Hqueries] speak for the queries. *)
Ltac described :=
  (split; [simpl; lia |]); (split; [simpl; lia |]);
  (split; [ match goal with
            | Hqueries : forall where_, _ -> forall ev, In ev [_; _] -> _ |- _ =>
                apply Hqueries; first [assumption | discriminate]
            | Hquery : forall where_, _ -> forall ev, In ev [_] -> _ |- _ =>
                apply Hquery; assumption
            end |]);
  (split; [reflexivity |]);
  (split; [ intros; simpl; lia | intros; discriminate ]).

(** The requests of a text search, in their order. *)
Lemma text_search_trace (w : World) (query : string) (n : Z) (tr : trace) :
  exists queries advice,
    snd (text_search w query n tr)
    = tr ++ EvGenerate (parse_prompt query) :: queries ++ advice /\
    (length queries <= 2)%nat /\
    (length advice <= 1)%nat /\
    (forall ev, In ev queries ->
       exists text where_, ev = EvQuery text (Z.min n 50) where_ /\
         forall where_clause, where_ = Some where_clause -> truthy where_clause = true) /\
    forallb is_completion advice = true /\
    (forall filters tr1 where_clause,
       parse_query_with_gemini w query tr = (Ok filters, tr1) ->
       build_chroma_where w filters = Ok where_clause ->
       (1 <= length queries)%nat) /\
    (forall filters tr1 e,
       parse_query_with_gemini w query tr = (Ok filters, tr1) ->
       build_chroma_where w filters = Raise e ->
       queries = [] /\ advice = []).
Proof.
  pose proof (parse_query_run w query tr) as Hparse.
  set (filters := match gemini_text w tr (parse_prompt query) with
                  | Ok text => _
                  | Raise _ => _
                  end) in Hparse.
  assert (Hsame : forall filters' tr1,
            parse_query_with_gemini w query tr = (Ok filters', tr1) -> filters' = filters).
  { intros filters' tr1 H. rewrite Hparse in H. injection H as <- _. reflexivity. }
  cut (exists queries advice,
         snd (text_search w query n tr)
         = tr ++ EvGenerate (parse_prompt query) :: queries ++ advice /\
         (length queries <= 2)%nat /\
         (length advice <= 1)%nat /\
         (forall ev, In ev queries ->
            exists text where_, ev = EvQuery text (Z.min n 50) where_ /\
              forall where_clause, where_ = Some where_clause ->
                                   truthy where_clause = true) /\
         forallb is_completion advice = true /\
         (forall where_clause, build_chroma_where w filters = Ok where_clause ->
                               (1 <= length queries)%nat) /\
         (forall e, build_chroma_where w filters = Raise e ->
                    queries = [] /\ advice = [])).
  { intros (queries & advice & H1 & H2 & H3 & H4 & H5 & H6 & H7).
    exists queries, advice. repeat (split; [assumption |]). split.
    - intros filters' tr1 where_clause H Hb. rewrite (Hsame _ _ H) in Hb. eauto.
    - intros filters' tr1 e H Hb. rewrite (Hsame _ _ H) in Hb. eauto. }
  clear Hsame.
  assert (Hnone : (forall where_clause, build_chroma_where w filters <> Ok where_clause) ->
            exists queries advice,
              tr ++ [EvGenerate (parse_prompt query)]
              = tr ++ EvGenerate (parse_prompt query) :: queries ++ advice /\
              (length queries <= 2)%nat /\ (length advice <= 1)%nat /\
              (forall ev, In ev queries ->
                 exists text where_, ev = EvQuery text (Z.min n 50) where_ /\
                   forall where_clause, where_ = Some where_clause ->
                                        truthy where_clause = true) /\
              forallb is_completion advice = true /\
              (forall where_clause, build_chroma_where w filters = Ok where_clause ->
                                    (1 <= length queries)%nat) /\
              (forall e, build_chroma_where w filters = Raise e ->
                         queries = [] /\ advice = [])).
  { intros Hbad. exists [], [].
    split; [reflexivity | split; [simpl; lia | split; [simpl; lia |]]].
    split; [intros ev [] | split; [reflexivity | split]].
    - intros where_clause Hb. exfalso. exact (Hbad _ Hb).
    - intros. split; reflexivity. }
  unfold_run. rewrite Hparse. step.
  set (tr1 := tr ++ [EvGenerate (parse_prompt query)]) in *.
  destruct (py_get filters "search_text") as [phrase|] eqn:Hphrase; step.
  2:{ apply Hnone. intros where_clause Hb.
      destruct (build_chroma_where_dict w _ _ Hb) as [d Hd].
      rewrite Hd in Hphrase. discriminate. }
  destruct (build_chroma_where w filters) as [where_clause|] eqn:Hbuild; step.
  2:{ apply Hnone. intros where_clause. discriminate. }
  clear Hnone.
  set (search_text := py_or phrase (PStr query)). set (limit := Z.min n 50).
  assert (Hquery : forall where_,
            (forall where_clause', where_ = Some where_clause' ->
                                   truthy where_clause' = true) ->
            forall ev, In ev [EvQuery search_text limit where_] ->
              exists text where', ev = EvQuery text limit where' /\
                forall where_clause', where' = Some where_clause' ->
                                      truthy where_clause' = true).
  { intros where_ Hw ev [<- | []]. do 2 eexists. split; [reflexivity | exact Hw]. }
  assert (Hqueries : forall where_,
            (forall where_clause', where_ = Some where_clause' ->
                                   truthy where_clause' = true) ->
            forall ev, In ev [EvQuery search_text limit where_;
                              EvQuery search_text limit None] ->
              exists text where', ev = EvQuery text limit where' /\
                forall where_clause', where' = Some where_clause' ->
                                      truthy where_clause' = true).
  { intros where_ Hw ev [<- | [<- | []]]; do 2 eexists;
      (split; [reflexivity |]); [exact Hw | discriminate]. }
  destruct (truthy where_clause) eqn:Htruthy; step;
    match goal with
    | |- context [chroma_query _ tr1 _ _ ?wh] =>
        assert (Hwh : forall where_clause', wh = Some where_clause' ->
                                            truthy where_clause' = true)
          by (intros ? H; first [ discriminate | injection H as <-; exact Htruthy ]);
        destruct (chroma_query w tr1 search_text limit wh) as [results|]; step
    end;
    try match goal with
    | |- context [chroma_query _ ?h _ _ None] =>
        destruct (chroma_query w h search_text limit None) as [results|]; step
    end;
    try (destruct results as [|[|pid ids] more]; step);
    try (destruct (get_products_by_ids w (pid :: ids)) as [products|]; step);
    try match goal with
    | |- context [generate_fashion_advice _ ?q ?ps ?t] =>
        unfold generate_fashion_advice, try_except, _generate, ret;
        destruct ps; [| destruct (gemini_text w t _)]
    end;
    cbn [snd]; unfold tr1; rewrite <- ?app_assoc; cbn [app];
    first
      [ exists [EvQuery search_text limit None; EvQuery search_text limit None];
        eexists [_]; split; [reflexivity |]; described
      | eexists [_; _]; eexists [_]; split; [reflexivity |]; described
      | eexists [_; _]; exists []; split; [reflexivity |]; described
      | eexists [_]; eexists [_]; split; [reflexivity |]; described
      | eexists [_]; exists []; split; [reflexivity |]; described ].
Qed.

(** X16.  A text search asks in a fixed order: the extraction
    completion first, then the index queries, two at most, then at most
    one advice completion; four requests at most.  When the extracted
    filters compile it asks the index once or twice; when they do not
    (the model's answer is no object, or [int] rejects a price bound) the
    extraction is its only request. *)
Theorem text_search_request_order (w : World) (query : string) (n : Z) (tr : trace) :
  exists queries advice,
    snd (text_search w query n tr)
    = tr ++ EvGenerate (parse_prompt query) :: queries ++ advice /\
    (length queries <= 2)%nat /\
    (length advice <= 1)%nat /\
    forallb (fun ev => negb (is_completion ev)) queries = true /\
    forallb is_completion advice = true /\
    (forall filters tr1 where_clause,
       parse_query_with_gemini w query tr = (Ok filters, tr1) ->
       build_chroma_where w filters = Ok where_clause ->
       (1 <= length queries)%nat) /\
    (forall filters tr1 e,
       parse_query_with_gemini w query tr = (Ok filters, tr1) ->
       build_chroma_where w filters = Raise e ->
       queries = [] /\ advice = []).
Proof.
  destruct (text_search_trace w query n tr)
    as (queries & advice & Htrace & Hq & Ha & Hqueries & Hadvice & Hsome & Hnone).
  exists queries, advice.
  split; [exact Htrace | split; [exact Hq | split; [exact Ha | split]]].
  - apply forallb_forall. intros ev Hev.
    destruct (Hqueries ev Hev) as (text & where_ & -> & _). reflexivity.
  - split; [exact Hadvice | split; [exact Hsome | exact Hnone]].
Qed.

(** X17.  Neither search hands the index an empty predicate: a query
    that carries a [where] carries a non-empty one, and the empty
    predicate of the Filter Compiler is sent as no [where] at all. *)
Theorem searches_send_no_empty_predicate (w : World) (n : Z) (tr : trace) :
  (forall query, exists rest,
     snd (text_search w query n tr) = tr ++ rest /\
     forall text k where_clause,
       In (EvQuery text k (Some where_clause)) rest -> truthy where_clause = true) /\
  (forall image_bytes, exists rest,
     snd (image_search w image_bytes n tr) = tr ++ rest /\
     forall text k where_clause,
       In (EvQuery text k (Some where_clause)) rest -> truthy where_clause = true).
Proof.
  split.
  - intros query.
    destruct (text_search_trace w query n tr)
      as (queries & advice & Htrace & _ & _ & Hqueries & Hadvice & _).
    eexists. split; [exact Htrace |].
    intros text k where_clause [H | H]; [discriminate |].
    apply in_app_or in H. destruct H as [H | H].
    + destruct (Hqueries _ H) as (text' & where_ & Heq & Hwhere).
      injection Heq as <- _ <-. apply Hwhere. reflexivity.
    + rewrite forallb_forall in Hadvice. apply Hadvice in H. discriminate.
  - intros image_bytes.
    unfold_run. step.
    destruct (gemini_vision w tr analysis_prompt image_bytes) as [text|]; step;
      [ destruct (json_loads w (strip_fences w text)) as [[| | | | | |d]|]; step;
        [ .. | unfold fallback_analysis ]
      | unfold fallback_analysis ];
      try (cbn [py_get py_get_default]; step;
           rewrite image_filters_where; step;
           match goal with
           | |- context [if truthy ?wc then _ else _] =>
               destruct (truthy wc) eqn:Htruthy; step
           end;
           match goal with
           | |- context [chroma_query w ?h ?text ?n ?wh] =>
               destruct (chroma_query w h text n wh); step;
               try match goal with
                   | |- context [chroma_query w ?h' text n None] =>
                       destruct (chroma_query w h' text n None); step
                   end
           end;
           try match goal with
               | |- context [get_products_by_ids w ?l] =>
                   destruct (get_products_by_ids w l); step
               end);
      cbn [snd py_get_default]; rewrite <- ?app_assoc; cbn [app];
      (eexists; split; [reflexivity |]);
      intros text' k where_clause Hin; simpl in Hin;
      repeat (destruct Hin as [Hin | Hin];
              [ first [ discriminate | injection Hin as <- <- <-; exact Htruthy ] |]);
      contradiction.
Qed.

(** ** The Filter Compiler, again *)

(** X18.  The compiled predicate depends on the seven filter fields
    and on nothing else in the dict: the search phrase and any further
    key the model adds leave it as it is. *)
Theorem build_chroma_where_reads_seven_fields (w : World) (d d' : list (string * pyval)) :
  (forall f, field_value d f = field_value d' f) ->
  build_chroma_where w (PDict d) = build_chroma_where w (PDict d').
Proof.
  intros Hsame. rewrite !build_chroma_where_set_fields.
  assert (Hfields : set_fields d = set_fields d').
  { unfold set_fields. apply filter_ext. intros f. rewrite Hsame. reflexivity. }
  rewrite Hfields.
  assert (Hconditions : forall l,
            mapR (field_condition w d) l = mapR (field_condition w d') l).
  { induction l as [|f l IH]; simpl; [reflexivity |].
    rewrite IH. unfold field_condition. rewrite Hsame. reflexivity. }
  rewrite Hconditions. reflexivity.
Qed.

Lemma search_phrase_is_no_filter :
  build_chroma_where Examples.world_no_model
    (PDict [ ("search_text", PStr "formal shirts"); ("gender", PStr "Men") ])
  = build_chroma_where Examples.world_no_model (PDict [ ("gender", PStr "Men") ]).
Proof.
  apply build_chroma_where_reads_seven_fields. intros []; reflexivity.
Defined.

(** ** The advice *)

(** X19.  The Result Composer never raises.  Given products, it makes
    one completion request, whose prompt lists the first four products
    only, and returns the model's text, or, when the completion fails,
    the template that names the number of products it was given. *)
Theorem generate_fashion_advice_fallback (w : World) (query : string) (p : product)
    (products : list product) (tr : trace) :
  let prompt := advice_prompt query (p :: products) in
  generate_fashion_advice w query (p :: products) tr
  = (Ok match gemini_text w tr prompt with
        | Ok text => text
        | Raise _ =>
            fstr [ "Great picks! Here are ";
                   str_of_int (Z.of_nat (length (p :: products)));
                   " items that match '"; query;
                   "'. These selections are curated based on your preferences." ]
        end,
     tr ++ [EvGenerate prompt]) /\
  prompt = advice_prompt query (firstn 4 (p :: products)).
Proof.
  cbv zeta. split.
  - unfold generate_fashion_advice, try_except, _generate, ret.
    destruct (gemini_text w tr (advice_prompt query (p :: products))); reflexivity.
  - unfold advice_prompt. rewrite firstn_firstn. reflexivity.
Qed.

(** X20.  The outfit advice never raises.  With no complementary
    product it is a fixed sentence and no request is made; otherwise one
    completion is requested, whose prompt names the first three
    complementary products only, and its text is returned, or a second
    fixed sentence when the completion fails. *)
Theorem generate_outfit_advice_fallback (w : World) (base : product) (tr : trace) :
  generate_outfit_advice w base [] tr
  = (Ok "Complete your look with these complementary items!", tr) /\
  forall p products,
    let prompt := outfit_prompt base (p :: products) in
    generate_outfit_advice w base (p :: products) tr
    = (Ok match gemini_text w tr prompt with
          | Ok text => text
          | Raise _ =>
              "Complete your look with these perfectly matched items! Mix and match for a stylish outfit."
          end,
       tr ++ [EvGenerate prompt]) /\
    prompt = outfit_prompt base (firstn 3 (p :: products)).
Proof.
  split; [reflexivity |].
  intros p products. cbv zeta. split.
  - unfold generate_outfit_advice, try_except, _generate, ret.
    destruct (gemini_text w tr (outfit_prompt base (p :: products))); reflexivity.
  - unfold outfit_prompt. rewrite firstn_firstn. reflexivity.
Qed.

(** ** The routes *)

Section RouteProperties.

Variable w : World.
Variable strip : string -> string.

(** What a text search returns, as far as the route reads it. *)
Lemma text_search_result_shape (query : string) (n : Z) (tr : trace) (result : pyval) :
  fst (text_search w query n tr) = Ok result ->
  exists products advice filters more,
    result = PDict (("products", rows products) :: ("advice", PStr advice)
                    :: ("filters", filters) :: more).
Proof.
  unfold_run. rewrite parse_query_run. step.
  match goal with
  | |- context [py_get ?f "search_text"] => generalize f; intros filters
  end.
  destruct (py_get filters "search_text") as [phrase|]; step; [| discriminate].
  destruct (build_chroma_where w filters) as [where_clause|]; step; [| discriminate].
  destruct (truthy where_clause); step;
    match goal with
    | |- context [chroma_query w ?h ?text ?k ?wh] =>
        destruct (chroma_query w h text k wh) as [results|]; step;
        try match goal with
            | |- context [chroma_query w ?h' text k None] =>
                destruct (chroma_query w h' text k None) as [results|]; step
            end
    end;
    try discriminate;
    (destruct results as [|[|pid ids] more]; step;
     [ intros H; injection H as <-; exists []; do 3 eexists; reflexivity
     | intros H; injection H as <-; exists []; do 3 eexists; reflexivity
     | destruct (get_products_by_ids w (pid :: ids)) as [products|]; step;
       [| discriminate];
       match goal with
       | |- context [generate_fashion_advice _ ?q ?ps ?t] =>
           destruct (generate_fashion_advice_ok w q ps t) as (advice & rest & -> & _)
       end;
       intros H; injection H as <-; do 4 eexists; reflexivity ]).
Qed.

Lemma length_rows (products : list product) :
  py_len (rows products) = Ok (Z.of_nat (length products)).
Proof. unfold rows, py_len. rewrite length_map. reflexivity. Qed.

End RouteProperties.

(** X21.  The search route answers a query that is empty once stripped
    (or absent) with status 400 and [Query is required]; it makes no
    request and leaves the conversation as it was. *)
Theorem api_search_blank_query (w : World) (strip : string -> string)
    (data raw : pyval) (conversation : option (list pyval)) (tr : trace) :
  py_get_default data "query" (PStr EmptyString) = Ok raw ->
  py_strip strip raw = Ok EmptyString ->
  api_search w strip data conversation tr
  = (Ok (mkResponse (PDict [ ("error", PStr "Query is required") ]) 400, conversation), tr).
Proof.
  intros Hraw Hstrip. unfold api_search, bind, lift, ret.
  rewrite Hraw. step. rewrite Hstrip. reflexivity.
Qed.

Lemma blank_search_is_rejected :
  api_search Examples.world_no_model Scenes.strip
    (PDict [ ("query", PStr "   ") ]) None []
  = (Ok (mkResponse (PDict [ ("error", PStr "Query is required") ]) 400, None), []).
Proof.
  apply (api_search_blank_query Examples.world_no_model Scenes.strip
           (PDict [ ("query", PStr "   ") ]) (PStr "   ") None []); reflexivity.
Defined.

(** X22.  For a query that is not empty once stripped, the search route
    runs the text search on the stripped query with the limit 12: its
    requests are those of that search, so every index query asks for 12
    results.  When the search returns, the route answers 200 with the
    products, the advice, the filters and the number of products, and
    the conversation has grown by the user's query and the advice; when
    the search raises, so does the route. *)
Theorem api_search_runs_text_search (w : World) (strip : string -> string)
    (data raw : pyval) (query : string) (conversation : option (list pyval))
    (tr : trace) :
  py_get_default data "query" (PStr EmptyString) = Ok raw ->
  py_strip strip raw = Ok query ->
  query <> EmptyString ->
  snd (api_search w strip data conversation tr) = snd (text_search w query 12 tr) /\
  (exists rest,
     snd (api_search w strip data conversation tr) = tr ++ rest /\
     forall text k where_, In (EvQuery text k where_) rest -> k = 12) /\
  (forall e, fst (text_search w query 12 tr) = Raise e ->
     fst (api_search w strip data conversation tr) = Raise e) /\
  (forall result, fst (text_search w query 12 tr) = Ok result ->
     exists products advice filters,
       py_getitem result "products" = Ok (rows products) /\
       py_getitem result "advice" = Ok (PStr advice) /\
       py_getitem result "filters" = Ok filters /\
       fst (api_search w strip data conversation tr)
       = Ok (mkResponse
               (PDict [ ("products", rows products); ("advice", PStr advice);
                        ("filters", filters);
                        ("count", PInt (Z.of_nat (length products))) ]) 200,
             Some (match conversation with Some turns => turns | None => [] end
                   ++ [ turn (PStr "user") (PStr query);
                        turn (PStr "assistant") (PStr advice) ]))).
Proof.
  intros Hraw Hstrip Hquery.
  assert (Htruthy : truthy (PStr query) = true).
  { simpl. destruct (String.eqb_spec query EmptyString); [contradiction | reflexivity]. }
  assert (Hrun : forall result tr',
            text_search w query 12 tr = (Ok result, tr') ->
            exists products advice filters,
              py_getitem result "products" = Ok (rows products) /\
              py_getitem result "advice" = Ok (PStr advice) /\
              py_getitem result "filters" = Ok filters /\
              api_search w strip data conversation tr
              = (Ok (mkResponse
                       (PDict [ ("products", rows products); ("advice", PStr advice);
                                ("filters", filters);
                                ("count", PInt (Z.of_nat (length products))) ]) 200,
                     Some (match conversation with Some turns => turns | None => [] end
                           ++ [ turn (PStr "user") (PStr query);
                                turn (PStr "assistant") (PStr advice) ])),
                 tr')).
  { intros result tr' Hsearch.
    destruct (text_search_result_shape w query 12 tr result)
      as (products & advice & filters & more & ->); [rewrite Hsearch; reflexivity |].
    exists products, advice, filters.
    split; [reflexivity | split; [reflexivity | split; [reflexivity |]]].
    unfold api_search, bind, lift, ret.
    rewrite Hraw. step. rewrite Hstrip. step. rewrite Htruthy. cbn [negb]. step.
    rewrite Hsearch. step.
    cbn [py_get_default py_getitem assoc String.eqb Ascii.eqb Bool.eqb]. step.
    rewrite length_rows. step. rewrite <- app_assoc. reflexivity. }
  assert (Hfail : forall e tr',
            text_search w query 12 tr = (Raise e, tr') ->
            api_search w strip data conversation tr = (Raise e, tr')).
  { intros e tr' Hsearch. unfold api_search, bind, lift, ret.
    rewrite Hraw. step. rewrite Hstrip. step. rewrite Htruthy. cbn [negb]. step.
    rewrite Hsearch. reflexivity. }
  assert (Hsame : snd (api_search w strip data conversation tr)
                  = snd (text_search w query 12 tr)).
  { destruct (text_search w query 12 tr) as [[result|e] tr'] eqn:Hsearch.
    - destruct (Hrun _ _ eq_refl) as (? & ? & ? & _ & _ & _ & ->). reflexivity.
    - rewrite (Hfail _ _ eq_refl). reflexivity. }
  split; [exact Hsame | split; [| split]].
  - rewrite Hsame.
    destruct (text_search_trace w query 12 tr)
      as (queries & advice & -> & _ & _ & Hqueries & Hadvice & _).
    eexists. split; [reflexivity |].
    intros text k where_ [H | H]; [discriminate |].
    apply in_app_or in H. destruct H as [H | H].
    + destruct (Hqueries _ H) as (text' & where' & Heq & _).
      injection Heq as _ -> _. reflexivity.
    + rewrite forallb_forall in Hadvice. apply Hadvice in H. discriminate.
  - intros e He. destruct (text_search w query 12 tr) as [r tr'] eqn:Hsearch.
    simpl in He. subst r. rewrite (Hfail _ _ eq_refl). reflexivity.
  - intros result Hresult. destruct (text_search w query 12 tr) as [r tr'] eqn:Hsearch.
    simpl in Hresult. subst r.
    destruct (Hrun _ _ eq_refl) as (products & advice & filters & H1 & H2 & H3 & ->).
    exists products, advice, filters. repeat split; assumption.
Qed.

Lemma padded_search_is_answered :
  exists products advice filters,
    fst (api_search Examples.world_no_model Scenes.strip
           (PDict [ ("query", PStr "  jeans ") ]) None [])
    = Ok (mkResponse
            (PDict [ ("products", rows products); ("advice", PStr advice);
                     ("filters", filters);
                     ("count", PInt (Z.of_nat (length products))) ]) 200,
          Some ([] ++ [ turn (PStr "user") (PStr "jeans");
                        turn (PStr "assistant") (PStr advice) ])).
Proof.
  destruct (api_search_runs_text_search Examples.world_no_model Scenes.strip
              (PDict [ ("query", PStr "  jeans ") ]) (PStr "  jeans ") "jeans" None []
              eq_refl eq_refl) as (_ & _ & _ & Hanswer); [discriminate |].
  destruct (Hanswer _ eq_refl) as (products & advice & filters & _ & _ & _ & H).
  exists products, advice, filters. exact H.
Defined.

(** X23.  The image route rejects a request with no upload, or with an
    upload that has no file name, with status 400 and without any
    request.  Otherwise its requests are those of the image search on
    the uploaded bytes with the limit 12: one vision request, then index
    queries that each ask for 12 results. *)
Theorem api_image_search_requests (w : World) (tr : trace) :
  api_image_search w None tr
  = (Ok (mkResponse (PDict [ ("error", PStr "No image provided") ]) 400), tr) /\
  (forall content,
     api_image_search w (Some (EmptyString, content)) tr
     = (Ok (mkResponse (PDict [ ("error", PStr "No image selected") ]) 400), tr)) /\
  (forall filename content, filename <> EmptyString ->
     exists rest,
       snd (api_image_search w (Some (filename, content)) tr)
       = tr ++ EvGenerateWithImage analysis_prompt content :: rest /\
       forall ev, In ev rest -> exists text where_, ev = EvQuery text 12 where_).
Proof.
  split; [reflexivity | split; [reflexivity |]].
  intros filename content Hname.
  assert (Htruthy : truthy (PStr filename) = true).
  { simpl. destruct (String.eqb_spec filename EmptyString); [contradiction | reflexivity]. }
  destruct (image_search_trace w content 12 tr) as (rest & Htrace & _ & Hqueries).
  exists rest. split; [| exact Hqueries].
  rewrite <- Htrace. unfold api_image_search. rewrite Htruthy. cbn [negb].
  unfold bind, lift, ret.
  destruct (image_search w content 12 tr) as [[result|e] tr']; [| reflexivity].
  step. cbn [snd].
  destruct (py_getitem result "products"); step; [| reflexivity].
  destruct (py_get_default result "advice" (PStr EmptyString)); step; [| reflexivity].
  destruct (py_get_default result "analysis" (PDict [])); step; [| reflexivity].
  match goal with
  | |- context [py_len ?v] => destruct (py_len v); reflexivity
  end.
Qed.

(** X24.  For an identifier the store does not know, the
    recommendation route answers with status 200, no products and the
    advice [Product not found.], and makes no request, as long as the
    identifier fits 64 bits; if it does not, the route raises the
    [OverflowError] of the store lookup. *)
Theorem api_recommend_unknown_product (w : World) (product_id : Z) (tr : trace) :
  ~ In product_id (map ProductId (products_table w)) ->
  (in_int64 product_id = true ->
   api_recommend w product_id tr
   = (Ok (mkResponse
            (PDict [ ("products", PList []); ("advice", PStr "Product not found.") ]) 200),
      tr)) /\
  (in_int64 product_id = false ->
   api_recommend w product_id tr = (Raise OverflowError, tr)).
Proof.
  intros Habsent. unfold api_recommend, get_outfit_recommendations, bind, lift, ret.
  split; intros Hrange.
  - rewrite (get_product_by_id_absent w product_id Hrange Habsent). reflexivity.
  - unfold get_product_by_id. rewrite Hrange. reflexivity.
Qed.

Lemma recommend_for_product_9 :
  api_recommend Examples.world_outfit 9 []
  = (Ok (mkResponse
           (PDict [ ("products", PList []); ("advice", PStr "Product not found.") ]) 200),
     []).
Proof.
  apply (api_recommend_unknown_product Examples.world_outfit 9 []).
  - simpl. intuition discriminate.
  - reflexivity.
Defined.
